(** * monetaic-backend: the LLM-backed analysis pipeline

    A shallow embedding of [services/finance_ai.py], [routes/user_data.py],
    [routes/analysis.py] and [ideal_spending.py], and the properties of the
    pipeline checked against it.

    Conventions of the embedding.
    - A Python [str] is the list of its Unicode code points ([pystr]).
    - Python values that occur in the program (JSON data read from the model's
      answer, MongoDB documents) are the constructors of [value]; a [dict] is
      an association list in insertion order with unique keys.
    - A Python call either returns or raises: [result]. Calls that touch the
      users collection thread the collection and a log of the operations it
      has carried out: [M]. What makes the store refuse a write, beyond the
      driver's own check of integers, is a parameter of the world.
    - The text-generation service is an oracle [service]: every request is
      answered by an exception or by a response value.
    - [print] calls are not modelled; [await] is sequential evaluation. *)

From Stdlib Require Import String Ascii DecimalString.
From Stdlib Require Import List NArith ZArith Bool Lia.
Import ListNotations.

Local Open Scope N_scope.
Local Open Scope list_scope.

(* ===================================================================== *)
(** ** Python strings *)
(* ===================================================================== *)

Definition pystr := list N.

(** A literal of the source, as code points. *)
Definition py (s : string) : pystr := map N_of_ascii (list_ascii_of_string s).

(** The same, with every apostrophe read as a double quote: JSON texts are
    written with apostrophes in this file. *)
Definition pyq (s : string) : pystr :=
  map (fun c => if c =? 39 then 34 else c) (py s).

Fixpoint str_eqb (a b : pystr) : bool :=
  match a, b with
  | [], [] => true
  | x :: a', y :: b' => (x =? y) && str_eqb a' b'
  | _, _ => false
  end.

(** [s[len(p):]] when [s.startswith(p)]. *)
Fixpoint strip_prefix (p s : pystr) : option pystr :=
  match p, s with
  | [], _ => Some s
  | x :: p', y :: s' => if x =? y then strip_prefix p' s' else None
  | _ :: _, [] => None
  end.

(** [p in s] for two strings: substring test. *)
Fixpoint is_substring (p s : pystr) : bool :=
  match strip_prefix p s with
  | Some _ => true
  | None => match s with
            | [] => false
            | _ :: s' => is_substring p s'
            end
  end.

(** [str.isspace] on one code point (the Unicode White_Space characters and
    the four information separators). *)
Definition isspace (c : N) : bool :=
  ((9 <=? c) && (c <=? 13)) || ((28 <=? c) && (c <=? 32))
  || (c =? 133) || (c =? 160) || (c =? 5760)
  || ((8192 <=? c) && (c <=? 8202))
  || (c =? 8232) || (c =? 8233) || (c =? 8239) || (c =? 8287) || (c =? 12288).

Fixpoint lstrip (s : pystr) : pystr :=
  match s with
  | c :: s' => if isspace c then lstrip s' else s
  | [] => []
  end.

Definition rstrip (s : pystr) : pystr := rev (lstrip (rev s)).

(** [s.strip()] *)
Definition strip (s : pystr) : pystr := rstrip (lstrip s).

Definition is_digit (c : N) : bool := (48 <=? c) && (c <=? 57).

Definition is_hex (c : N) : bool :=
  is_digit c || ((97 <=? c) && (c <=? 102)) || ((65 <=? c) && (c <=? 70)).

Definition hex_val (c : N) : N :=
  if is_digit c then c - 48
  else if (97 <=? c) && (c <=? 102) then c - 87
  else c - 55.

Definition lower_hex (c : N) : N :=
  if (65 <=? c) && (c <=? 70) then c + 32 else c.

(** [str(n)] for an [int]. *)
Definition str_of_Z (z : Z) : pystr := py (NilZero.string_of_int (Z.to_int z)).

(* ===================================================================== *)
(** ** Python values *)
(* ===================================================================== *)

(** [VFloat] keeps the literal as it was written: no property below depends
    on the numerical value of a float. [VObjectId] holds the bytes of a
    [bson.ObjectId] as lower-case hexadecimal digits, two for each byte: 24
    digits for an identifier of twelve bytes. *)
#[local] Unset Elimination Schemes.
Inductive value :=
| VNone
| VBool (b : bool)
| VInt (z : Z)
| VFloat (lexeme : pystr)
| VStr (s : pystr)
| VList (l : list value)
| VDict (d : list (pystr * value))
| VObjectId (hex : pystr).
#[local] Set Elimination Schemes.

Definition dict := list (pystr * value).

Fixpoint dict_get (d : dict) (k : pystr) : option value :=
  match d with
  | [] => None
  | (k', v) :: d' => if str_eqb k' k then Some v else dict_get d' k
  end.

Definition dict_mem (d : dict) (k : pystr) : bool :=
  match dict_get d k with Some _ => true | None => false end.

(** [d[k] = v]: an existing key keeps its place, a new key goes last. *)
Fixpoint dict_set (d : dict) (k : pystr) (v : value) : dict :=
  match d with
  | [] => [(k, v)]
  | (k', v') :: d' =>
      if str_eqb k' k then (k', v) :: d' else (k', v') :: dict_set d' k v
  end.

(** [dict(pairs)] *)
Definition dict_of_pairs (pairs : list (pystr * value)) : dict :=
  fold_left (fun d kv => dict_set d (fst kv) (snd kv)) pairs [].

(** [d.get(k, default)] *)
Definition dict_get_default (d : dict) (k : pystr) (default : value) : value :=
  match dict_get d k with Some v => v | None => default end.

(** The float literal denotes zero when its mantissa has no non-zero digit
    ([NaN] and the infinities are not zero). Literals that underflow to
    zero are not told apart. *)
Fixpoint mantissa_zero (lexeme : pystr) : bool :=
  match lexeme with
  | [] => true
  | c :: r =>
      if (c =? 101) || (c =? 69) then true
      else if is_digit c then (c =? 48) && mantissa_zero r
      else if (c =? 45) || (c =? 46) then mantissa_zero r
      else false
  end.

(** [bool(v)] *)
Definition truthy (v : value) : bool :=
  match v with
  | VNone => false
  | VBool b => b
  | VInt z => negb (Z.eqb z 0)
  | VFloat lexeme => negb (mantissa_zero lexeme)
  | VStr s => match s with [] => false | _ => true end
  | VList l => match l with [] => false | _ => true end
  | VDict d => match d with [] => false | _ => true end
  | VObjectId _ => true
  end.

(** [a or b] *)
Definition py_or (a b : value) : value := if truthy a then a else b.

Definition type_name (v : value) : pystr :=
  match v with
  | VNone => py "NoneType"
  | VBool _ => py "bool"
  | VInt _ => py "int"
  | VFloat _ => py "float"
  | VStr _ => py "str"
  | VList _ => py "list"
  | VDict _ => py "dict"
  | VObjectId _ => py "ObjectId"
  end.

Fixpoint join (sep : pystr) (parts : list pystr) : pystr :=
  match parts with
  | [] => []
  | [p] => p
  | p :: ps => p ++ sep ++ join sep ps
  end.

(** [repr(v)]. Strings are put between apostrophes without Python's
    escaping and floats are shown as written; these texts only ever end up
    inside the message of an error record. *)
Fixpoint py_repr (v : value) : pystr :=
  match v with
  | VNone => py "None"
  | VBool true => py "True"
  | VBool false => py "False"
  | VInt z => str_of_Z z
  | VFloat lexeme => lexeme
  | VStr s => [39] ++ s ++ [39]
  | VList l => py "[" ++ join (py ", ") (map py_repr l) ++ py "]"
  | VDict d =>
      py "{"
      ++ join (py ", ")
           (map (fun kv => [39] ++ fst kv ++ [39] ++ py ": " ++ py_repr (snd kv)) d)
      ++ py "}"
  | VObjectId hex => py "ObjectId('" ++ hex ++ py "')"
  end.

(** [str(v)] *)
Definition py_str (v : value) : pystr :=
  match v with
  | VStr s => s
  | VObjectId hex => hex
  | _ => py_repr v
  end.

(* ===================================================================== *)
(** ** Exceptions and results *)
(* ===================================================================== *)

(** The exception classes that occur. All of them derive from [Exception];
    [JSONDecodeError] also derives from [ValueError], which matters only to
    a handler for [ValueError], and the program has none. [OtherError]
    stands for any further [Exception] subclass the service client or the
    store may raise. *)
Inductive exn_class :=
| OpenAIError
| JSONDecodeError
| ValueError
| KeyError
| IndexError
| TypeError
| AttributeError
| OverflowError
| InvalidId
| HTTPException (status_code : Z)
| OtherError.

(** An exception: its class and [str(e)] (the [detail] of an
    [HTTPException]). *)
Record exn := Exn { exn_cls : exn_class; exn_str : pystr }.

Inductive result (A : Type) :=
| Ret (a : A)
| Raise (e : exn).
Arguments Ret {A} a.
Arguments Raise {A} e.

Definition bind {A B} (r : result A) (k : A -> result B) : result B :=
  match r with
  | Ret a => k a
  | Raise e => Raise e
  end.

Notation "x <- e ;; k" := (bind e (fun x => k))
  (at level 61, e at next level, right associativity).

Definition is_class (c : exn_class) (e : exn) : bool :=
  match c, exn_cls e with
  | OpenAIError, OpenAIError => true
  | JSONDecodeError, JSONDecodeError => true
  | _, _ => false
  end.

(** Subscripts, membership tests and method calls on a value of unknown
    type, with the interpreter's exceptions. *)

Inductive subscript :=
| Key (k : pystr)
| Idx (i : nat).

(** [v[sub]] *)
Definition py_getitem (v : value) (sub : subscript) : result value :=
  match v, sub with
  | VDict d, Key k =>
      match dict_get d k with
      | Some x => Ret x
      | None => Raise (Exn KeyError ([39] ++ k ++ [39]))
      end
  | VDict _, Idx i => Raise (Exn KeyError (str_of_Z (Z.of_nat i)))
  | VList l, Idx i =>
      match nth_error l i with
      | Some x => Ret x
      | None => Raise (Exn IndexError (py "list index out of range"))
      end
  | VList _, Key _ =>
      Raise (Exn TypeError (py "list indices must be integers or slices, not str"))
  | VStr s, Idx i =>
      match nth_error s i with
      | Some c => Ret (VStr [c])
      | None => Raise (Exn IndexError (py "string index out of range"))
      end
  | VStr _, Key _ => Raise (Exn TypeError (py "string indices must be integers"))
  | _, _ =>
      Raise (Exn TypeError ([39] ++ type_name v ++ py "' object is not subscriptable"))
  end.

(** [k in v] for a string [k] *)
Definition py_in (k : pystr) (v : value) : result bool :=
  match v with
  | VDict d => Ret (dict_mem d k)
  | VList l =>
      Ret (existsb (fun x => match x with VStr s => str_eqb s k | _ => false end) l)
  | VStr s => Ret (is_substring k s)
  | _ =>
      Raise (Exn TypeError
               (py "argument of type '" ++ type_name v ++ py "' is not iterable"))
  end.

Definition no_attribute (v : value) (attr : pystr) : exn :=
  Exn AttributeError
      ([39] ++ type_name v ++ py "' object has no attribute '" ++ attr ++ [39]).

(** [v.strip()] *)
Definition py_strip (v : value) : result pystr :=
  match v with
  | VStr s => Ret (strip s)
  | _ => Raise (no_attribute v (py "strip"))
  end.

(** [v.items()] *)
Definition py_items (v : value) : result (list (pystr * value)) :=
  match v with
  | VDict d => Ret d
  | _ => Raise (no_attribute v (py "items"))
  end.

(* ===================================================================== *)
(** ** [json.loads] *)
(* ===================================================================== *)

(** The decoder of the standard library ([json.decoder], [json.scanner]),
    followed function by function. A [JSONDecodeError] carries its message
    without the position. [NoFuel] is the end of the recursion budget of
    [scan_once]; [json_loads] gives a budget that is never used up
    ([json_loads_fuel] below). The interpreter's own limits are not
    modelled: where it would stop with [RecursionError] on deeply nested
    text, or with [ValueError] on an integer of more digits than it
    converts, this decoder goes on and decodes. *)
Inductive scan (A : Type) :=
| Scanned (a : A) (rest : pystr)
| Malformed (msg : pystr)
| NoFuel.
Arguments Scanned {A} a rest.
Arguments Malformed {A} msg.
Arguments NoFuel {A}.

Definition is_json_ws (c : N) : bool :=
  (c =? 32) || (c =? 9) || (c =? 10) || (c =? 13).

Fixpoint skip_ws (s : pystr) : pystr :=
  match s with
  | c :: r => if is_json_ws c then skip_ws r else s
  | [] => []
  end.

Definition hex4 (a b c d : N) : option N :=
  if is_hex a && is_hex b && is_hex c && is_hex d
  then Some (((hex_val a * 16 + hex_val b) * 16 + hex_val c) * 16 + hex_val d)
  else None.

(** The table [BACKSLASH] of [json.decoder]. *)
Definition backslash (c : N) : option N :=
  if c =? 34 then Some 34
  else if c =? 92 then Some 92
  else if c =? 47 then Some 47
  else if c =? 98 then Some 8
  else if c =? 102 then Some 12
  else if c =? 110 then Some 10
  else if c =? 114 then Some 13
  else if c =? 116 then Some 9
  else None.

Definition push_char (c : N) (k : scan pystr) : scan pystr :=
  match k with
  | Scanned str rest => Scanned (c :: str) rest
  | other => other
  end.

(** [scanstring(s, end)] with [end] just after the opening quote. *)
Fixpoint scanstring (s : pystr) : scan pystr :=
  match s with
  | [] => Malformed (py "Unterminated string starting at")
  | c :: r =>
      if c =? 34 then Scanned [] r
      else if c =? 92 then
        match r with
        | [] => Malformed (py "Unterminated string starting at")
        | e :: r1 =>
            if e =? 117 then
              match r1 with
              | h1 :: h2 :: h3 :: h4 :: r2 =>
                  match hex4 h1 h2 h3 h4 with
                  | None => Malformed (py "Invalid \uXXXX escape")
                  | Some uni =>
                      if (55296 <=? uni) && (uni <=? 56319) then
                        match r2 with
                        | b :: u :: r3 =>
                            if (b =? 92) && (u =? 117) then
                              match r3 with
                              | l1 :: l2 :: l3 :: l4 :: r4 =>
                                  match hex4 l1 l2 l3 l4 with
                                  | None => Malformed (py "Invalid \uXXXX escape")
                                  | Some uni2 =>
                                      if (56320 <=? uni2) && (uni2 <=? 57343) then
                                        push_char
                                          (65536 + ((uni - 55296) * 1024 + (uni2 - 56320)))
                                          (scanstring r4)
                                      else push_char uni (scanstring r2)
                                  end
                              | _ => Malformed (py "Invalid \uXXXX escape")
                              end
                            else push_char uni (scanstring r2)
                        | _ => push_char uni (scanstring r2)
                        end
                      else push_char uni (scanstring r2)
                  end
              | _ => Malformed (py "Invalid \uXXXX escape")
              end
            else
              match backslash e with
              | Some x => push_char x (scanstring r1)
              | None => Malformed (py "Invalid \escape")
              end
        end
      else if c <? 32 then Malformed (py "Invalid control character at")
      else push_char c (scanstring r)
  end.

(** The three groups of [NUMBER_RE]: an optional minus sign and either a
    single zero or a run of digits not starting with zero; optionally a dot
    and one or more digits; optionally [e] or [E], an optional sign and one
    or more digits. *)

Fixpoint span_digits (s : pystr) : pystr * pystr :=
  match s with
  | c :: r =>
      if is_digit c then (c :: fst (span_digits r), snd (span_digits r))
      else ([], s)
  | [] => ([], [])
  end.

Definition match_integer (s : pystr) : option (pystr * pystr) :=
  let unsigned (sign s1 : pystr) :=
    match s1 with
    | c :: r =>
        if c =? 48 then Some (sign ++ [c], r)
        else if is_digit c
             then Some (sign ++ c :: fst (span_digits r), snd (span_digits r))
             else None
    | [] => None
    end in
  match s with
  | c :: r => if c =? 45 then unsigned [c] r else unsigned [] s
  | [] => None
  end.

Definition match_frac (s : pystr) : pystr * pystr :=
  match s with
  | c :: r =>
      if c =? 46 then
        match fst (span_digits r) with
        | [] => ([], s)
        | ds => (c :: ds, snd (span_digits r))
        end
      else ([], s)
  | [] => ([], s)
  end.

Definition match_exp (s : pystr) : pystr * pystr :=
  match s with
  | c :: r =>
      if (c =? 101) || (c =? 69) then
        let signed :=
          match r with
          | x :: r' => if (x =? 45) || (x =? 43) then ([x], r') else ([], r)
          | [] => ([], r)
          end in
        match fst (span_digits (snd signed)) with
        | [] => ([], s)
        | ds => (c :: fst signed ++ ds, snd (span_digits (snd signed)))
        end
      else ([], s)
  | [] => ([], s)
  end.

Definition digits_value (ds : pystr) : Z :=
  fold_left (fun acc c => (acc * 10 + Z.of_N (c - 48))%Z) ds 0%Z.

(** [int(lexeme)] *)
Definition int_of_lexeme (lexeme : pystr) : Z :=
  match lexeme with
  | c :: ds => if c =? 45 then (- digits_value ds)%Z else digits_value lexeme
  | [] => 0%Z
  end.

Definition match_number (s : pystr) : option (value * pystr) :=
  match match_integer s with
  | None => None
  | Some (integer, r) =>
      let frac := match_frac r in
      let exp := match_exp (snd frac) in
      match fst frac, fst exp with
      | [], [] => Some (VInt (int_of_lexeme integer), snd exp)
      | _, _ => Some (VFloat (integer ++ fst frac ++ fst exp), snd exp)
      end
  end.

Definition expecting_value : pystr := py "Expecting value".
Definition expecting_name : pystr :=
  py "Expecting property name enclosed in double quotes".
Definition expecting_colon : pystr := py "Expecting ':' delimiter".
Definition expecting_comma : pystr := py "Expecting ',' delimiter".

(** The constants and numbers of [_scan_once], tried in its order. *)
Definition scan_atom (s : pystr) : scan value :=
  match strip_prefix (py "null") s with
  | Some r => Scanned VNone r
  | None =>
  match strip_prefix (py "true") s with
  | Some r => Scanned (VBool true) r
  | None =>
  match strip_prefix (py "false") s with
  | Some r => Scanned (VBool false) r
  | None =>
  match match_number s with
  | Some (v, r) => Scanned v r
  | None =>
  match strip_prefix (py "NaN") s with
  | Some r => Scanned (VFloat (py "NaN")) r
  | None =>
  match strip_prefix (py "Infinity") s with
  | Some r => Scanned (VFloat (py "Infinity")) r
  | None =>
  match strip_prefix (py "-Infinity") s with
  | Some r => Scanned (VFloat (py "-Infinity")) r
  | None => Malformed expecting_value
  end end end end end end end.

(** [scan_once], [JSONObject] and [JSONArray]. [object_loop] starts just
    after the opening quote of a key, [array_loop] at an element. *)
Fixpoint scan_once (fuel : nat) (s : pystr) : scan value :=
  match fuel with
  | O => NoFuel
  | S fuel' =>
      match s with
      | [] => Malformed expecting_value
      | c :: r =>
          if c =? 34 then
            match scanstring r with
            | Scanned str r' => Scanned (VStr str) r'
            | Malformed m => Malformed m
            | NoFuel => NoFuel
            end
          else if c =? 123 then
            match skip_ws r with
            | x :: r1 =>
                if x =? 125 then Scanned (VDict []) r1
                else if x =? 34 then object_loop fuel' r1 []
                else Malformed expecting_name
            | [] => Malformed expecting_name
            end
          else if c =? 91 then
            match skip_ws r with
            | x :: r1 =>
                if x =? 93 then Scanned (VList []) r1
                else array_loop fuel' (x :: r1) []
            | [] => Malformed expecting_value
            end
          else scan_atom s
      end
  end

with object_loop (fuel : nat) (s : pystr) (pairs : list (pystr * value))
  : scan value :=
  match fuel with
  | O => NoFuel
  | S fuel' =>
      match scanstring s with
      | Scanned key r =>
          match skip_ws r with
          | c :: r1 =>
              if c =? 58 then
                match scan_once fuel' (skip_ws r1) with
                | Scanned v r2 =>
                    match skip_ws r2 with
                    | x :: r3 =>
                        if x =? 125
                        then Scanned (VDict (dict_of_pairs (pairs ++ [(key, v)]))) r3
                        else if x =? 44 then
                          match skip_ws r3 with
                          | q :: r4 =>
                              if q =? 34
                              then object_loop fuel' r4 (pairs ++ [(key, v)])
                              else Malformed expecting_name
                          | [] => Malformed expecting_name
                          end
                        else Malformed expecting_comma
                    | [] => Malformed expecting_comma
                    end
                | Malformed m => Malformed m
                | NoFuel => NoFuel
                end
              else Malformed expecting_colon
          | [] => Malformed expecting_colon
          end
      | Malformed m => Malformed m
      | NoFuel => NoFuel
      end
  end

with array_loop (fuel : nat) (s : pystr) (values : list value) : scan value :=
  match fuel with
  | O => NoFuel
  | S fuel' =>
      match scan_once fuel' s with
      | Scanned v r =>
          match skip_ws r with
          | x :: r1 =>
              if x =? 93 then Scanned (VList (values ++ [v])) r1
              else if x =? 44 then array_loop fuel' (skip_ws r1) (values ++ [v])
              else Malformed expecting_comma
          | [] => Malformed expecting_comma
          end
      | Malformed m => Malformed m
      | NoFuel => NoFuel
      end
  end.

(** [json.loads(s)]: the decoded value, or [JSONDecodeError]. *)
Definition json_loads (s : pystr) : result value :=
  match s with
  | 65279 :: _ =>
      Raise (Exn JSONDecodeError (py "Unexpected UTF-8 BOM (decode using utf-8-sig)"))
  | _ =>
      match scan_once (S (2 * length s)) (skip_ws s) with
      | Scanned v r =>
          match skip_ws r with
          | [] => Ret v
          | _ :: _ => Raise (Exn JSONDecodeError (py "Extra data"))
          end
      | Malformed m => Raise (Exn JSONDecodeError m)
      | NoFuel => Raise (Exn OtherError (py "recursion budget used up"))
      end
  end.

(* ===================================================================== *)
(** ** services/finance_ai.py *)
(* ===================================================================== *)

Definition try_except {A} (body : result A) (handlers : exn -> result A)
  : result A :=
  match body with
  | Ret a => Ret a
  | Raise e => handlers e
  end.

Definition error_record (msg : pystr) : value := VDict [(py "error", VStr msg)].

Fixpoint convert_objectid (obj : value) : value :=
  match obj with
  | VObjectId hex => VStr hex
  | VDict d => VDict (map (fun kv => (fst kv, convert_objectid (snd kv))) d)
  | VList l => VList (map convert_objectid l)
  | _ => obj
  end.

(** [re.search(r"\{.*\}", text, re.DOTALL)]: the match starts at the first
    brace that has a closing brace somewhere after it and, [.*] being greedy
    and matching every character, ends at the last closing brace. *)

Fixpoint upto_last_rbrace (s : pystr) : option pystr :=
  match s with
  | [] => None
  | c :: r =>
      match upto_last_rbrace r with
      | Some m => Some (c :: m)
      | None => if c =? 125 then Some [c] else None
      end
  end.

Fixpoint re_search_braces (s : pystr) : option pystr :=
  match s with
  | [] => None
  | c :: r =>
      if c =? 123 then
        match upto_last_rbrace r with
        | Some m => Some (c :: m)
        | None => re_search_braces r
        end
      else re_search_braces r
  end.

Definition extract_json (response_text : pystr) : result value :=
  try_except
    match re_search_braces response_text with
    | Some m => json_loads m
    | None => Raise (Exn ValueError (py "No JSON found in OpenAI response"))
    end
    (fun e =>
       if is_class JSONDecodeError e
       then Ret (error_record (py "Invalid JSON format from OpenAI"))
       else Raise e).

(** *** The text-generation service *)

Inductive analysis := Spending | Longterm | Shortterm | GoodHabits | BadHabits.

(** A rendered prompt: the instruction template of one analysis with
    [json.dumps(payload, indent=2)] embedded in it. *)
Record query := Query { q_template : analysis; q_payload : value }.

Fixpoint json_serializable (v : value) : bool :=
  match v with
  | VObjectId _ => false
  | VList l => forallb json_serializable l
  | VDict d => forallb (fun kv => json_serializable (snd kv)) d
  | _ => true
  end.

(** [json.dumps(v, indent=2)], of which only the failure matters. *)
Definition json_dumps (v : value) : result unit :=
  if json_serializable v then Ret tt
  else Raise (Exn TypeError (py "Object of type ObjectId is not JSON serializable")).

(** The f-string of a stage. *)
Definition render (template : analysis) (payload : value) : result query :=
  _ <- json_dumps payload ;; Ret (Query template payload).

(** The arguments of [openai.ChatCompletion.create] that vary; the model
    name and the system message are the same in every call. *)
Record request := {
  rq_query : query;
  rq_max_tokens : Z;
  rq_temperature : option pystr;
  rq_top_p : option pystr
}.

Inductive answer :=
| Fails (e : exn)
| Responds (response : value).

Definition service := request -> answer.

Definition create (svc : service) (rq : request) : result value :=
  match svc rq with
  | Fails e => Raise e
  | Responds response => Ret response
  end.

(** [response["choices"][0]["message"]["content"].strip()] *)
Definition first_choice_text (response : value) : result pystr :=
  choices <- py_getitem response (Key (py "choices")) ;;
  choice <- py_getitem choices (Idx 0) ;;
  message <- py_getitem choice (Key (py "message")) ;;
  content <- py_getitem message (Key (py "content")) ;;
  py_strip content.

(** [not response or "choices" not in response or not response["choices"]] *)
Definition no_choices (response : value) : result bool :=
  if negb (truthy response) then Ret true
  else
    present <- py_in (py "choices") response ;;
    if negb present then Ret true
    else
      choices <- py_getitem response (Key (py "choices")) ;;
      Ret (negb (truthy choices)).

Definition api_error_message : pystr := py "OpenAI API error. Please try again later.".

(** The request of [call_openai]: [max_tokens=250], default sampling. *)
Definition plain_request (query : query) : request :=
  {| rq_query := query; rq_max_tokens := 250;
     rq_temperature := None; rq_top_p := None |}.

(** The request of the habit functions: [temperature=0.6], [top_p=0.9]. *)
Definition sampled_request (query : query) (max_tokens : Z) : request :=
  {| rq_query := query; rq_max_tokens := max_tokens;
     rq_temperature := Some (py "0.6"); rq_top_p := Some (py "0.9") |}.

Definition call_openai (svc : service) (query : query) : result value :=
  try_except
    (response <- create svc (plain_request query) ;;
     empty <- no_choices response ;;
     if empty then Raise (Exn ValueError (py "Empty response from OpenAI API"))
     else
       response_text <- first_choice_text response ;;
       if negb (truthy (VStr response_text))
       then Raise (Exn ValueError (py "OpenAI API returned an empty response"))
       else extract_json response_text)
    (fun e =>
       if is_class OpenAIError e then Ret (error_record api_error_message)
       else Ret (error_record (exn_str e))).

Definition analyze_spending (svc : service) (user_data : value) : result value :=
  let user_data_clean := convert_objectid user_data in
  query <- render Spending user_data_clean ;;
  call_openai svc query.

Definition generate_longterm_goals (svc : service) (spend_analysis : value)
  : result value :=
  query <- render Longterm spend_analysis ;;
  call_openai svc query.

Definition generate_shortterm_goals (svc : service) (spend_analysis : value)
  : result value :=
  query <- render Shortterm spend_analysis ;;
  call_openai svc query.

(** *** The habit lists *)

(** [extracted_list.extend(items[:1])] *)
Definition extend_first (extracted_list : list value) (items : list value)
  : list value :=
  extracted_list ++ firstn 1 items.

Definition good_habits_keys : list pystr :=
  [py "positiveSpendingOpportunities"; py "growthAreas"].

Definition bad_habits_keys : list pystr :=
  [py "highImpactReductions"; py "debtOptimizations";
   py "lifestyleAdjustments"; py "smartSubstitutions"].

(** The inner loop of [identify_good_habits], over [parsed_response[key].items()]. *)
Fixpoint good_inner_loop (items : list (pystr * value)) (extracted_list : list value)
  : list value :=
  match items with
  | [] => extracted_list
  | (sub_key, VList l) :: rest => good_inner_loop rest (extend_first extracted_list l)
  | (sub_key, _) :: rest => good_inner_loop rest extracted_list
  end.

(** The outer loop of [identify_good_habits]. *)
Fixpoint good_outer_loop (keys : list pystr) (parsed_response : value)
  (extracted_list : list value) : result (list value) :=
  match keys with
  | [] => Ret extracted_list
  | key :: keys' =>
      present <- py_in key parsed_response ;;
      if present then
        section <- py_getitem parsed_response (Key key) ;;
        items <- py_items section ;;
        good_outer_loop keys' parsed_response (good_inner_loop items extracted_list)
      else good_outer_loop keys' parsed_response extracted_list
  end.

(** Lines 230-238 of [identify_good_habits]. *)
Definition normalize_good_habits (parsed_response : value) : result value :=
  extracted_list <- good_outer_loop good_habits_keys parsed_response [] ;;
  Ret (VList (firstn 4 extracted_list)).

(** The loop of [identify_bad_habits]. *)
Fixpoint bad_loop (keys : list pystr) (parsed_response : value)
  (extracted_list : list value) : result (list value) :=
  match keys with
  | [] => Ret extracted_list
  | key :: keys' =>
      present <- py_in key parsed_response ;;
      if present then
        items <- py_getitem parsed_response (Key key) ;;
        match items with
        | VList (x :: l) =>
            bad_loop keys' parsed_response (extend_first extracted_list (x :: l))
        | _ => bad_loop keys' parsed_response extracted_list
        end
      else bad_loop keys' parsed_response extracted_list
  end.

Definition no_bad_habits : value := error_record (py "No negative habits identified.").

(** Lines 350-358 of [identify_bad_habits]. *)
Definition normalize_bad_habits (parsed_response : value) : result value :=
  extracted_list <- bad_loop bad_habits_keys parsed_response [] ;;
  Ret (if truthy (VList extracted_list)
       then VList (firstn 4 extracted_list)
       else VList [no_bad_habits]).

(** The part the two habit functions share: the call, the extraction and
    the handlers, around the normalisation [normalize]. *)
Definition identify_habits (template : analysis) (max_tokens : Z)
  (normalize : value -> result value) (svc : service) (user_data : value)
  : result value :=
  let user_data_clean := convert_objectid user_data in
  query <- render template user_data_clean ;;
  try_except
    (response <- create svc (sampled_request query max_tokens) ;;
     response_text <- first_choice_text response ;;
     if negb (truthy (VStr response_text))
     then Raise (Exn ValueError (py "OpenAI API returned an empty response"))
     else
       parsed_response <- extract_json response_text ;;
       failed <- py_in (py "error") parsed_response ;;
       if failed then
         cause <- py_getitem parsed_response (Key (py "error")) ;;
         Raise (Exn ValueError (py "OpenAI JSON extraction failed: " ++ py_str cause))
       else normalize parsed_response)
    (fun e =>
       if is_class OpenAIError e then Ret (VList [error_record api_error_message])
       else if is_class JSONDecodeError e
       then Ret (VList [error_record (py "Invalid JSON format from OpenAI")])
       else Ret (VList [error_record (exn_str e)])).

Definition identify_good_habits : service -> value -> result value :=
  identify_habits GoodHabits 500 normalize_good_habits.

Definition identify_bad_habits : service -> value -> result value :=
  identify_habits BadHabits 600 normalize_bad_habits.

(* ===================================================================== *)
(** ** The users collection *)
(* ===================================================================== *)

(** The white space of ASCII, which [bytes.fromhex] skips. *)
Definition is_ascii_space (c : N) : bool :=
  ((9 <=? c) && (c <=? 13)) || (c =? 32).

(** [bytes.fromhex(s)], as the hexadecimal digits of the bytes: white space
    is skipped before each byte and at the end, and a byte is two
    hexadecimal digits next to each other; anything else is a
    [ValueError]. *)
Fixpoint fromhex (s : pystr) : option pystr :=
  match s with
  | [] => Some []
  | c :: r =>
      if is_ascii_space c then fromhex r
      else
        match r with
        | d :: r' =>
            if is_hex c && is_hex d
            then option_map (fun hex => lower_hex c :: lower_hex d :: hex) (fromhex r')
            else None
        | [] => None
        end
  end.

(** The identifier [ObjectId()] and [ObjectId(None)] generate: one that no
    record carries yet. Generated identifiers are not told apart; the text
    that stands for them is not the hexadecimal form of any bytes. *)
Definition generated_oid : pystr := py "generated".

(** [ObjectId(oid)], as its hexadecimal digits. A string has to have 24
    characters and to go through [bytes.fromhex]: the identifier made of
    the bytes read has twelve of them, or fewer when the string holds white
    space. *)
Definition ObjectId (oid : value) : result pystr :=
  match oid with
  | VNone => Ret generated_oid
  | VObjectId hex => Ret hex
  | VStr s =>
      match (if Nat.eqb (length s) 24 then fromhex s else None) with
      | Some hex => Ret hex
      | None =>
          Raise (Exn InvalidId
                   ([39] ++ s ++ py "' is not a valid ObjectId, it must be a 12-byte input or a 24-character hex string"))
      end
  | _ =>
      Raise (Exn TypeError
               (py "id must be an instance of (bytes, str, ObjectId), not <class '"
                ++ type_name oid ++ py "'>"))
  end.

(** [ObjectId.is_valid(oid)] *)
Definition ObjectId_is_valid (oid : value) : bool :=
  truthy oid && match ObjectId oid with Ret _ => true | Raise _ => false end.

(** The operations sent to the collection; every filter is [{"_id": oid}]. *)
Inductive db_op :=
| FindOne (oid : pystr) (projection : option (list pystr))
| UpdateOneSet (oid : pystr) (fields : dict)
| DeleteOne (oid : pystr).

(** The store: its records, the operations it has carried out, and what it
    refuses. [refused docs oid fields] is the message of the error with
    which the driver or the server turns down the update of [oid] by
    [fields] when the collection holds [docs], if it does; a write that is
    turned down changes nothing and is not logged. Reads and deletes are
    always carried out. *)
Record world := MkWorld {
  users_collection : list dict;
  oplog : list db_op;
  refused : list dict -> pystr -> dict -> option pystr
}.

(** The world with these records and this log whose store turns no update
    down. The driver's own check of integers, in [update_one_set], applies
    in every world. *)
Definition World (docs : list dict) (ops : list db_op) : world :=
  MkWorld docs ops (fun _ _ _ => None).

Definition M (A : Type) := world -> result A * world.

Definition bindM {A B} (m : M A) (k : A -> M B) : M B :=
  fun w =>
    match m w with
    | (Ret a, w') => k a w'
    | (Raise e, w') => (Raise e, w')
    end.

Definition lift {A} (r : result A) : M A := fun w => (r, w).

Notation "x <~ m ;; k" := (bindM m (fun x => k))
  (at level 61, m at next level, right associativity).

(** The world after [op] has been carried out and has left [docs]. *)
Definition sent (op : db_op) (docs : list dict) (w : world) : world :=
  MkWorld docs (oplog w ++ [op]) (refused w).

Definition has_id (oid : pystr) (doc : dict) : bool :=
  match dict_get doc (py "_id") with
  | Some (VObjectId hex) => str_eqb hex oid
  | _ => false
  end.

(** A projection keeps [_id] and the listed fields. *)
Definition project (projection : option (list pystr)) (doc : dict) : dict :=
  match projection with
  | None => doc
  | Some fields =>
      filter (fun kv => str_eqb (fst kv) (py "_id")
                        || existsb (str_eqb (fst kv)) fields) doc
  end.

Definition find_one (oid : pystr) (projection : option (list pystr))
  : M (option dict) :=
  fun w =>
    (Ret (option_map (project projection) (find (has_id oid) (users_collection w))),
     sent (FindOne oid projection) (users_collection w) w).

(** [$set]: each listed field is assigned in the first matching document. *)
Definition set_fields (doc fields : dict) : dict :=
  fold_left (fun d kv => dict_set d (fst kv) (snd kv)) fields doc.

Fixpoint update_first (oid : pystr) (fields : dict) (docs : list dict)
  : list dict :=
  match docs with
  | [] => []
  | doc :: rest =>
      if has_id oid doc then set_fields doc fields :: rest
      else doc :: update_first oid fields rest
  end.

(** BSON has no integer of more than eight bytes. *)
Fixpoint eight_byte_ints (v : value) : bool :=
  match v with
  | VInt z => (-9223372036854775808 <=? z)%Z && (z <=? 9223372036854775807)%Z
  | VList l => forallb eight_byte_ints l
  | VDict d => forallb (fun kv => eight_byte_ints (snd kv)) d
  | _ => true
  end.

(** [update_one({"_id": oid}, {"$set": fields})]. The driver encodes the
    update document before it sends anything and raises [OverflowError] on
    an [int] that does not fit eight bytes. *)
Definition update_one_set (oid : pystr) (fields : dict) : M unit :=
  fun w =>
    if negb (eight_byte_ints (VDict fields))
    then (Raise (Exn OverflowError (py "BSON can only handle up to 8-byte ints")), w)
    else
      match refused w (users_collection w) oid fields with
      | Some msg => (Raise (Exn OtherError msg), w)
      | None =>
          (Ret tt,
           sent (UpdateOneSet oid fields)
             (update_first oid fields (users_collection w)) w)
      end.

Fixpoint delete_first (oid : pystr) (docs : list dict) : list dict * Z :=
  match docs with
  | [] => ([], 0%Z)
  | doc :: rest =>
      if has_id oid doc then (rest, 1%Z)
      else (doc :: fst (delete_first oid rest), snd (delete_first oid rest))
  end.

(** [delete_one], returning [deleted_count]. *)
Definition delete_one (oid : pystr) : M Z :=
  fun w =>
    (Ret (snd (delete_first oid (users_collection w))),
     sent (DeleteOne oid) (fst (delete_first oid (users_collection w))) w).

(* ===================================================================== *)
(** ** routes/user_data.py *)
(* ===================================================================== *)

Definition http_error {A} (status_code : Z) (detail : pystr) : M A :=
  lift (Raise (Exn (HTTPException status_code) detail)).

(** The five variables after the five [try] blocks. *)
Record stage_values := {
  spend_analysis : value;
  longterm : value;
  shortterm : value;
  good_habits : value;
  bad_habits : value
}.

(** [try: x = stage ... except Exception: x = fallback] *)
Definition or_fallback (stage : result value) (fallback : value) : value :=
  match stage with
  | Ret v => v
  | Raise _ => fallback
  end.

Definition run_stages (svc : service) (user : dict) (user_clean : value)
  : stage_values :=
  let spend_analysis :=
    or_fallback (analyze_spending svc user_clean)
                (dict_get_default user (py "spend_analysis") (VDict [])) in
  let longterm :=
    or_fallback (generate_longterm_goals svc spend_analysis)
                (dict_get_default user (py "longterm") (VDict [])) in
  let shortterm :=
    or_fallback (generate_shortterm_goals svc spend_analysis)
                (dict_get_default user (py "shortterm") (VDict [])) in
  let good_habits :=
    or_fallback (identify_good_habits svc user_clean)
                (dict_get_default user (py "good_habits") (VList [])) in
  let bad_habits :=
    or_fallback (identify_bad_habits svc user_clean)
                (dict_get_default user (py "bad_habits") (VList [])) in
  {| spend_analysis := spend_analysis; longterm := longterm;
     shortterm := shortterm; good_habits := good_habits;
     bad_habits := bad_habits |}.

Definition update_data (user : dict) (r : stage_values) : dict :=
  [ (py "spend_analysis",
     py_or (spend_analysis r) (dict_get_default user (py "spend_analysis") (VDict [])));
    (py "longterm",
     py_or (longterm r) (dict_get_default user (py "longterm") (VDict [])));
    (py "shortterm",
     py_or (shortterm r) (dict_get_default user (py "shortterm") (VDict [])));
    (py "good_habits",
     py_or (good_habits r) (dict_get_default user (py "good_habits") (VList [])));
    (py "bad_habits",
     py_or (bad_habits r) (dict_get_default user (py "bad_habits") (VList []))) ].

(** [updated_user.get("email")] on the result of [find_one]. *)
Definition get_email (found : option dict) : result value :=
  match found with
  | Some doc => Ret (dict_get_default doc (py "email") VNone)
  | None => Raise (no_attribute VNone (py "get"))
  end.

Definition found_value (found : option dict) : value :=
  match found with
  | Some doc => VDict doc
  | None => VNone
  end.

Definition analyze_and_update_user (svc : service) (user : dict) : M value :=
  let user_clean := convert_objectid (VDict user) in
  _ <~ lift (json_dumps user_clean) ;;
  let merged := update_data user (run_stages svc user user_clean) in
  id <~ lift (py_getitem (VDict user) (Key (py "_id"))) ;;
  oid <~ lift (ObjectId id) ;;
  _ <~ update_one_set oid merged ;;
  id' <~ lift (py_getitem (VDict user) (Key (py "_id"))) ;;
  oid' <~ lift (ObjectId id') ;;
  updated_user <~ find_one oid' None ;;
  email <~ lift (get_email updated_user) ;;
  lift (Ret (VDict [ (py "message", VStr (py "Analysis completed and updated"));
                     (py "email", email);
                     (py "data", convert_objectid (found_value updated_user)) ])).

Definition verify_and_run_analysis (svc : service) (user_id : pystr) : M value :=
  if negb (ObjectId_is_valid (VStr user_id))
  then http_error 400 (py "Invalid ObjectID format")
  else
    oid <~ lift (ObjectId (VStr user_id)) ;;
    user <~ find_one oid None ;;
    match user with
    | Some doc =>
        if negb (truthy (VDict doc)) then http_error 404 (py "User not found")
        else if negb (truthy (dict_get_default doc (py "email") VNone))
        then http_error 404 (py "User email not found")
        else
          result <~ analyze_and_update_user svc doc ;;
          _ <~ lift (json_dumps result) ;;
          lift (Ret result)
    | None => http_error 404 (py "User not found")
    end.

Definition delete_user (user_id : pystr) : M value :=
  if negb (ObjectId_is_valid (VStr user_id))
  then http_error 400 (py "Invalid ObjectID format")
  else
    oid <~ lift (ObjectId (VStr user_id)) ;;
    deleted_count <~ delete_one oid ;;
    if Z.eqb deleted_count 0 then http_error 404 (py "User not found")
    else lift (Ret (VDict [(py "message", VStr (py "User deleted successfully"))])).

(* ===================================================================== *)
(** ** routes/analysis.py *)
(* ===================================================================== *)

Definition analyze_user_finances (svc : service) (user_id : pystr) : M value :=
  if negb (ObjectId_is_valid (VStr user_id))
  then http_error 400 (py "Invalid ObjectID format")
  else
    oid <~ lift (ObjectId (VStr user_id)) ;;
    user <~ find_one oid (Some [py "financial"]) ;;
    match user with
    | Some doc =>
        if negb (truthy (VDict doc)) then http_error 404 (py "User not found")
        else
          let financial_data := dict_get_default doc (py "financial") (VDict []) in
          if negb (truthy financial_data)
          then http_error 400 (py "No financial data found for the user")
          else
            lift (try_except
                    (analysis_result <- analyze_spending svc financial_data ;;
                     Ret (VDict [ (py "user_id", VStr user_id);
                                  (py "analysis", analysis_result) ]))
                    (fun e =>
                       Raise (Exn (HTTPException 500)
                                (py "Error analyzing financial data: " ++ exn_str e))))
    | None => http_error 404 (py "User not found")
    end.

(* ===================================================================== *)
(** ** ideal_spending.py *)
(* ===================================================================== *)

Module IdealSpending.

(** The rendered prompt of [suggest_ideal_spending]: its template with
    [json.dumps(user_data, indent=2)] and [user_data.get("income", 0)]
    embedded, both read off [user_data]. *)
Record query := Query { q_user_data : dict }.

(** The one request this module makes: the prompt, with [max_tokens=400]. *)
Record request := { rq_query : query; rq_max_tokens : Z }.

Definition service := request -> answer.

Definition create (svc : service) (rq : request) : result value :=
  match svc rq with
  | Fails e => Raise e
  | Responds response => Ret response
  end.

Definition call_openai (svc : service) (query : query) : result value :=
  try_except
    (response <- create svc {| rq_query := query; rq_max_tokens := 400 |} ;;
     response_text <- first_choice_text response ;;
     if negb (truthy (VStr response_text))
     then Raise (Exn ValueError (py "OpenAI API returned an empty response"))
     else json_loads response_text)
    (fun e =>
       if is_class OpenAIError e then Ret (error_record api_error_message)
       else if is_class JSONDecodeError e
       then Ret (error_record (py "Invalid JSON format from OpenAI"))
       else Ret (error_record (exn_str e))).

Definition suggest_ideal_spending (svc : service) (user_data : dict)
  : result value :=
  _ <- json_dumps (VDict user_data) ;;
  let income := py_str (dict_get_default user_data (py "income") (VInt 0)) in
  call_openai svc (Query user_data).

End IdealSpending.

(* ===================================================================== *)
(** ** Notions used in the statements, and sample data *)
(* ===================================================================== *)

(** A scan that stopped for want of budget is excluded, and a successful
    one has consumed at least one character of [s]. *)
Definition shorter {A} (s : pystr) (k : scan A) : Prop :=
  match k with
  | Scanned _ rest => (length rest < length s)%nat
  | Malformed _ => True
  | NoFuel => False
  end.
Arguments shorter : simpl never.

(** The text has an opening brace with a closing brace after it. *)
Definition has_brace_span (text : pystr) : Prop :=
  exists a b c, text = a ++ [123] ++ b ++ [125] ++ c.

Definition no_json_found : pystr := py "No JSON found in OpenAI response".

Definition invalid_json : pystr := py "Invalid JSON format from OpenAI".

Definition substring (i n : nat) (text : pystr) : pystr := firstn n (skipn i text).

(** [s] runs from an opening brace to a closing brace and decodes to an
    object. *)
Definition is_json_object_text (s : pystr) : bool :=
  match s with
  | c :: _ =>
      (c =? 123) && (last s 0 =? 125)
      && match json_loads s with Ret (VDict _) => true | _ => false end
  | [] => false
  end.

(** Start and length of every substring of [text] that is a JSON object. *)
Definition json_objects_in (text : pystr) : list (nat * nat) :=
  filter (fun p => is_json_object_text (substring (fst p) (snd p) text))
    (flat_map (fun i => map (pair i) (seq 1 (length text - i)))
       (seq 0 (length text))).

(** The response object of a chat completion with one choice. *)
Definition chat_response (content : pystr) : value :=
  VDict [ (py "choices",
           VList [ VDict [ (py "message",
                            VDict [ (py "role", VStr (py "assistant"));
                                    (py "content", VStr content) ]) ] ]) ].

(** The selection rule of the habit lists in the words of the design: for
    each top-level key, for each nested list found under it, the first
    element if there is one; all of them in one sequence in the order met;
    at most four kept. *)

Definition lists_among (values : list value) : list (list value) :=
  flat_map (fun v => match v with VList l => [l] | _ => [] end) values.

(** Good habits: the nested lists are the list-valued entries of the object
    under the key, in the order the object has them. *)
Definition good_sublists (parsed : dict) : list (list value) :=
  flat_map (fun key =>
              match dict_get parsed key with
              | Some (VDict section) => lists_among (map snd section)
              | _ => []
              end) good_habits_keys.

(** Bad habits: the value under the key is the list. *)
Definition bad_sublists (parsed : dict) : list (list value) :=
  flat_map (fun key =>
              match dict_get parsed key with
              | Some v => lists_among [v]
              | None => []
              end) bad_habits_keys.

Definition first_elements (sublists : list (list value)) : list value :=
  flat_map (firstn 1) sublists.

Definition selected (sublists : list (list value)) : list value :=
  firstn 4 (first_elements sublists).

(** The shape the good-habits answer is asked to have: a declared key that
    is present holds an object. *)
Definition good_shape (parsed : dict) : Prop :=
  forall key, In key good_habits_keys ->
    match dict_get parsed key with
    | Some (VDict _) | None => True
    | Some _ => False
    end.

(** The object decoded from a JSON text ([{}] when it is not an object). *)
Definition parsed_object (text : pystr) : dict :=
  match json_loads text with
  | Ret (VDict d) => d
  | _ => []
  end.

(** A good-habits answer with six populated lists and one empty list. *)
Definition six_populated : pystr :=
  pyq "{'positiveSpendingOpportunities': {'investments': [{'category': 'index funds'}, {'category': 'gold'}], 'selfDevelopment': [{'area': 'courses'}], 'emergencyFund': [], 'protectiveSpending': [{'type': 'term cover'}]}, 'growthAreas': {'skillEnhancement': [{'skill': 'sql'}], 'networking': [{'skill': 'meetups'}], 'certifications': [{'skill': 'cfa'}]}}".

(** A bad-habits answer with two populated lists. *)
Definition two_populated : pystr :=
  pyq "{'highImpactReductions': [], 'debtOptimizations': [{'loanType': 'card'}, {'loanType': 'car'}], 'smartSubstitutions': [{'currentItem': 'cab'}]}".

(** A good-habits answer in which every list is empty, and the same for bad
    habits. *)
Definition all_empty_good : pystr :=
  pyq "{'positiveSpendingOpportunities': {'investments': [], 'selfDevelopment': [], 'protectiveSpending': []}, 'growthAreas': {'skillEnhancement': []}}".

Definition all_empty_bad : pystr :=
  pyq "{'highImpactReductions': [], 'debtOptimizations': [], 'lifestyleAdjustments': [], 'smartSubstitutions': []}".

Definition derived_fields : list pystr :=
  [py "spend_analysis"; py "longterm"; py "shortterm"; py "good_habits";
   py "bad_habits"].

(** This run's value of a derived field: the variable of that name after
    the five [try] blocks. *)
Definition stage_value (r : stage_values) (field : pystr) : value :=
  if str_eqb field (py "spend_analysis") then spend_analysis r
  else if str_eqb field (py "longterm") then longterm r
  else if str_eqb field (py "shortterm") then shortterm r
  else if str_eqb field (py "good_habits") then good_habits r
  else bad_habits r.

(** The value stored before the run, as [user.get] reads it: an empty
    object or list when the record has no such field. *)
Definition prior_value (user : dict) (field : pystr) : value :=
  dict_get_default user field
    (if str_eqb field (py "good_habits") || str_eqb field (py "bad_habits")
     then VList [] else VDict []).

(** A stored record with all five derived fields filled in by an earlier
    run. *)
Definition stored_user : dict :=
  [ (py "_id", VObjectId (py "0123456789abcdef01234567"));
    (py "email", VStr (py "asha@example.com"));
    (py "financial",
     VDict [ (py "monthlyIncome", VInt 50000);
             (py "expenses", VDict [(py "essentials", VInt 40000)]) ]);
    (py "spend_analysis",
     VDict [ (py "rating", VInt 40);
             (py "analysis", VList [VStr (py "overspending on essentials")]) ]);
    (py "longterm", VDict [(py "longterm_goals", VList [VStr (py "retire at 55")])]);
    (py "shortterm", VDict [(py "shortterm_goals", VList [VStr (py "clear the card")])]);
    (py "good_habits", VList [VDict [(py "category", VStr (py "index funds"))]]);
    (py "bad_habits", VList [VDict [(py "habit", VStr (py "late fees"))]]) ].

(** The service out of reach: every call raises an [OpenAIError]. *)
Definition service_down : service :=
  fun _ => Fails (Exn OpenAIError (py "Rate limit reached")).

(** The answers of a service that is reachable but useless. *)
Definition service_blank : service := fun _ => Responds (chat_response (py "   ")).

Definition service_prose : service :=
  fun _ => Responds (chat_response (py "I cannot help with that.")).

Definition service_garbled : service :=
  fun _ => Responds (chat_response (pyq "{'rating': 40, 'analysis': ['overspending'}")).

Definition service_no_choices : service :=
  fun _ => Responds (VDict [(py "choices", VList [])]).

Definition analysis_of (svc : service) : result value :=
  fst (analyze_user_finances svc (py "0123456789abcdef01234567")
         (World [stored_user] [])).

Definition success_payload (message : pystr) : result value :=
  Ret (VDict [ (py "user_id", VStr (py "0123456789abcdef01234567"));
               (py "analysis", error_record message) ]).

(** The operations a call has sent. *)
Definition sent_by {A} (m : M A) (w : world) : list db_op :=
  skipn (length (oplog w)) (oplog (snd (m w))).


(** A string of 24 hexadecimal digits: the form of identifier the endpoints
    are meant for. [ObjectId] takes these and more (see [fromhex]). *)
Definition valid_oid_str (s : pystr) : bool :=
  Nat.eqb (length s) 24 && forallb is_hex s.



(** A service whose every answer holds an integer of more than eight
    bytes. *)
Definition service_wide_int : service :=
  fun _ => Responds (chat_response (pyq "{'rating': 9223372036854775808}")).

Definition overflow_error : exn :=
  Exn OverflowError (py "BSON can only handle up to 8-byte ints").

(** A store that holds [stored_user] and turns every update down. *)
Definition too_large : pystr :=
  py "Resulting document after update is larger than 16777216".

Definition full_store : world := MkWorld [stored_user] [] (fun _ _ _ => Some too_large).

(** A service whose every answer is the empty JSON object. *)
Definition service_empty_object : service :=
  fun _ => Responds (chat_response (py "{}")).

(** A service whose every answer is a JSON object reporting an error of its
    own. *)
Definition service_refusal : service :=
  fun _ => Responds (chat_response (pyq "{'error': 'insufficient data'}")).

(* ===================================================================== *)
(** * Properties *)
(* ===================================================================== *)

(** ** Strings and dictionaries *)

Lemma str_eqb_refl (a : pystr) : str_eqb a a = true.
Proof.
  induction a as [|x a IH]; simpl; [reflexivity|].
  now rewrite N.eqb_refl, IH.
Qed.

Lemma str_eqb_eq (a b : pystr) : str_eqb a b = true <-> a = b.
Proof.
  split; [|intros ->; apply str_eqb_refl].
  revert b; induction a as [|x a IH]; intros [|y b]; simpl; try discriminate; auto.
  intros H. apply andb_true_iff in H as [Hx Hr].
  apply N.eqb_eq in Hx. f_equal; auto.
Qed.

Lemma str_eqb_neq (a b : pystr) : str_eqb a b = false <-> a <> b.
Proof.
  rewrite <- str_eqb_eq. destruct (str_eqb a b); split; congruence.
Qed.

Lemma dict_get_set_same (d : dict) (k : pystr) (v : value) :
  dict_get (dict_set d k v) k = Some v.
Proof.
  induction d as [|[k' v'] d IH]; simpl.
  - now rewrite str_eqb_refl.
  - destruct (str_eqb k' k) eqn:E; simpl; rewrite E; auto.
Qed.

Lemma dict_get_set_other (d : dict) (k k' : pystr) (v : value) :
  k <> k' -> dict_get (dict_set d k v) k' = dict_get d k'.
Proof.
  intros Hk. induction d as [|[k0 v0] d IH]; simpl.
  - apply str_eqb_neq in Hk. now rewrite Hk.
  - destruct (str_eqb k0 k) eqn:E; simpl.
    + apply str_eqb_eq in E; subst k0.
      apply str_eqb_neq in Hk. now rewrite Hk.
    + destruct (str_eqb k0 k'); auto.
Qed.

Lemma skipn_length_app {A} (l l' : list A) : skipn (length l) (l ++ l') = l'.
Proof. induction l; simpl; auto. Qed.

(** ** The decoder never uses up its budget *)

Lemma shorter_mono {A} (s s' : pystr) (k : scan A) :
  shorter s' k -> (length s' <= length s)%nat -> shorter s k.
Proof. unfold shorter; destruct k; auto; lia. Qed.

Lemma shorter_push (s s' : pystr) (c : N) (k : scan pystr) :
  shorter s' k -> (length s' <= length s)%nat -> shorter s (push_char c k).
Proof. unfold shorter; destruct k; simpl; auto; lia. Qed.

Ltac break_match :=
  match goal with
  | |- context [match ?x with _ => _ end] => destruct x eqn:?
  end.

Lemma scanstring_shorter_upto (n : nat) :
  forall s, (length s <= n)%nat -> shorter s (scanstring s).
Proof.
  induction n as [|n IH]; intros s Hn.
  - destruct s; [exact I | simpl in Hn; lia].
  - destruct s as [|c r]; [exact I|].
    cbn [scanstring].
    repeat break_match; subst; cbn [length] in *;
      match goal with
      | |- shorter _ (Malformed _) => exact I
      | |- shorter _ (Scanned _ _) => unfold shorter; cbn [length]; lia
      | |- shorter _ (push_char _ (scanstring ?t)) =>
          apply shorter_push with (s' := t); [apply IH|]; cbn [length]; lia
      end.
Qed.

Lemma scanstring_shorter (s : pystr) : shorter s (scanstring s).
Proof. apply (scanstring_shorter_upto (length s)); lia. Qed.

Lemma skip_ws_length (s : pystr) : (length (skip_ws s) <= length s)%nat.
Proof.
  induction s as [|c r IH]; simpl; [lia|].
  destruct (is_json_ws c); simpl; lia.
Qed.

Lemma span_digits_length (s : pystr) :
  (length (snd (span_digits s)) <= length s)%nat.
Proof.
  induction s as [|c r IH]; simpl; [lia|].
  destruct (is_digit c); simpl; lia.
Qed.

Lemma strip_prefix_length (p s r : pystr) :
  strip_prefix p s = Some r -> (length r + length p = length s)%nat.
Proof.
  revert s; induction p as [|x p IH]; intros [|y s]; simpl; try discriminate.
  - intros [= <-]; simpl; lia.
  - intros [= <-]; simpl; lia.
  - destruct (x =? y); [|discriminate]. intros H. apply IH in H. lia.
Qed.

Lemma match_integer_length (s lexeme r : pystr) :
  match_integer s = Some (lexeme, r) -> (length r < length s)%nat.
Proof.
  unfold match_integer. intros H.
  destruct s as [|c s]; [discriminate|].
  destruct (c =? 45).
  - destruct s as [|d s]; [discriminate|].
    destruct (d =? 48); [injection H as _ <-; simpl; lia|].
    destruct (is_digit d); [|discriminate].
    injection H as _ <-. pose proof (span_digits_length s). simpl; lia.
  - destruct (c =? 48); [injection H as _ <-; simpl; lia|].
    destruct (is_digit c); [|discriminate].
    injection H as _ <-. pose proof (span_digits_length s). simpl; lia.
Qed.

Lemma match_frac_length (s : pystr) : (length (snd (match_frac s)) <= length s)%nat.
Proof.
  unfold match_frac. destruct s as [|c s]; simpl; [lia|].
  destruct (c =? 46); simpl; [|lia].
  pose proof (span_digits_length s).
  destruct (fst (span_digits s)); simpl; lia.
Qed.

Lemma match_exp_length (s : pystr) : (length (snd (match_exp s)) <= length s)%nat.
Proof.
  unfold match_exp. destruct s as [|c s]; simpl; [lia|].
  destruct ((c =? 101) || (c =? 69)); simpl; [|lia].
  destruct s as [|x s]; simpl; [lia|].
  destruct ((x =? 45) || (x =? 43)); simpl.
  - pose proof (span_digits_length s).
    destruct (fst (span_digits s)); simpl; lia.
  - pose proof (span_digits_length (x :: s)) as H. simpl in H.
    destruct (is_digit x); simpl in *; lia.
Qed.

Lemma match_number_length (s r : pystr) (v : value) :
  match_number s = Some (v, r) -> (length r < length s)%nat.
Proof.
  unfold match_number. intros H.
  destruct (match_integer s) as [[lexeme r0]|] eqn:E; [|discriminate].
  apply match_integer_length in E.
  pose proof (match_frac_length r0).
  pose proof (match_exp_length (snd (match_frac r0))).
  destruct (fst (match_frac r0)), (fst (match_exp (snd (match_frac r0))));
    injection H as _ <-; lia.
Qed.

Lemma scan_atom_shorter (s : pystr) : shorter s (scan_atom s).
Proof.
  unfold scan_atom.
  repeat match goal with
  | |- context [strip_prefix ?p s] =>
      let E := fresh "E" in
      destruct (strip_prefix p s) eqn:E;
      [apply strip_prefix_length in E; unfold shorter; simpl in E; lia|]
  | |- context [match_number s] =>
      let E := fresh "E" in
      destruct (match_number s) as [[? ?]|] eqn:E;
      [apply match_number_length in E; exact E|]
  end.
  exact I.
Qed.

Ltac ws_length :=
  repeat match goal with
  | E : skip_ws ?r = _ |- _ =>
      let H := fresh "Hws" in
      pose proof (skip_ws_length r) as H; rewrite E in H; cbn [length] in H; clear E
  end.

Lemma scan_fuel (fuel : nat) :
  (forall s, (2 * length s < fuel)%nat -> shorter s (scan_once fuel s))
  /\ (forall s pairs, (2 * length s < fuel)%nat ->
                      shorter s (object_loop fuel s pairs))
  /\ (forall s values, (2 * length s + 1 < fuel)%nat ->
                       shorter s (array_loop fuel s values)).
Proof.
  induction fuel as [|fuel (IHscan & IHobject & IHarray)].
  - repeat split; intros; lia.
  - repeat split.
    + intros [|c r] Hf; [exact I|]. cbn [scan_once length] in *.
      destruct (c =? 34).
      { pose proof (scanstring_shorter r) as Hs.
        destruct (scanstring r); unfold shorter in *; cbn [length]; auto; lia. }
      destruct (c =? 123).
      { destruct (skip_ws r) as [|x r1] eqn:E; [exact I|]. ws_length.
        destruct (x =? 125); [unfold shorter; cbn [length]; lia|].
        destruct (x =? 34); [|exact I].
        apply shorter_mono with (s' := r1); [apply IHobject|]; cbn [length]; lia. }
      destruct (c =? 91).
      { destruct (skip_ws r) as [|x r1] eqn:E; [exact I|]. ws_length.
        destruct (x =? 93); [unfold shorter; cbn [length]; lia|].
        apply shorter_mono with (s' := x :: r1); [apply IHarray|]; cbn [length]; lia. }
      apply scan_atom_shorter.
    + intros s pairs Hf. cbn [object_loop].
      pose proof (scanstring_shorter s) as Hs.
      destruct (scanstring s) as [key r| |]; [|exact I|exact Hs].
      unfold shorter in Hs.
      destruct (skip_ws r) as [|c r1] eqn:E; [exact I|]. ws_length.
      destruct (c =? 58); [|exact I].
      pose proof (skip_ws_length r1) as Hr1.
      assert (Hv : shorter (skip_ws r1) (scan_once fuel (skip_ws r1)))
        by (apply IHscan; lia).
      destruct (scan_once fuel (skip_ws r1)) as [v r2| |]; [|exact I|exact Hv].
      unfold shorter in Hv.
      destruct (skip_ws r2) as [|x r3] eqn:E2; [exact I|]. ws_length.
      destruct (x =? 125); [unfold shorter; lia|].
      destruct (x =? 44); [|exact I].
      destruct (skip_ws r3) as [|q r4] eqn:E3; [exact I|]. ws_length.
      destruct (q =? 34); [|exact I].
      apply shorter_mono with (s' := r4); [apply IHobject|]; lia.
    + intros s values Hf. cbn [array_loop].
      assert (Hv : shorter s (scan_once fuel s)) by (apply IHscan; lia).
      destruct (scan_once fuel s) as [v r| |]; [|exact I|exact Hv].
      unfold shorter in Hv.
      destruct (skip_ws r) as [|x r1] eqn:E; [exact I|]. ws_length.
      destruct (x =? 93); [unfold shorter; lia|].
      destruct (x =? 44); [|exact I].
      pose proof (skip_ws_length r1).
      apply shorter_mono with (s' := skip_ws r1); [apply IHarray|]; lia.
Qed.

(** [json.loads] always has budget left. *)
Lemma json_loads_fuel (s : pystr) :
  scan_once (S (2 * length s)) (skip_ws s) <> NoFuel.
Proof.
  pose proof (skip_ws_length s).
  pose proof (proj1 (scan_fuel (S (2 * length s))) (skip_ws s)) as Hs.
  intros E. rewrite E in Hs. apply Hs. lia.
Qed.

(** A text that opens with a brace decodes to a [dict] or not at all. *)

Lemma object_loop_dict (fuel : nat) :
  forall s pairs v rest,
    object_loop fuel s pairs = Scanned v rest -> exists d, v = VDict d.
Proof.
  induction fuel as [|fuel IH]; intros s pairs v rest; cbn [object_loop];
    [discriminate|].
  destruct (scanstring s) as [key r| |]; try discriminate.
  destruct (skip_ws r) as [|c r1]; try discriminate.
  destruct (c =? 58); try discriminate.
  destruct (scan_once fuel (skip_ws r1)) as [v0 r2| |]; try discriminate.
  destruct (skip_ws r2) as [|x r3]; try discriminate.
  destruct (x =? 125); [intros [= <- _]; eauto|].
  destruct (x =? 44); try discriminate.
  destruct (skip_ws r3) as [|q r4]; try discriminate.
  destruct (q =? 34); try discriminate.
  apply IH.
Qed.

Lemma scan_once_brace_dict (fuel : nat) (r rest : pystr) (v : value) :
  scan_once fuel (123 :: r) = Scanned v rest -> exists d, v = VDict d.
Proof.
  destruct fuel as [|fuel]; cbn [scan_once]; [discriminate|].
  change (123 =? 34) with false. change (123 =? 123) with true. cbv iota.
  destruct (skip_ws r) as [|x r1]; try discriminate.
  destruct (x =? 125); [intros [= <- _]; eauto|].
  destruct (x =? 34); try discriminate.
  apply object_loop_dict.
Qed.

Lemma json_loads_brace_dict (r : pystr) (v : value) :
  json_loads (123 :: r) = Ret v -> exists d, v = VDict d.
Proof.
  unfold json_loads.
  change (skip_ws (123 :: r)) with (123 :: r).
  destruct (scan_once (S (2 * length (123 :: r))) (123 :: r)) as [v0 rest| |] eqn:E;
    try discriminate.
  destruct (skip_ws rest); try discriminate.
  intros [= <-]. eapply scan_once_brace_dict; eauto.
Qed.

(** ** The brace search *)

Lemma upto_last_rbrace_none (s : pystr) :
  upto_last_rbrace s = None <-> ~ In 125 s.
Proof.
  induction s as [|c r IH]; simpl; [tauto|].
  destruct (upto_last_rbrace r) as [m|].
  - split; [discriminate|]. intros H. exfalso.
    assert (Hr : ~ In 125 r) by tauto.
    apply IH in Hr. discriminate.
  - destruct (N.eqb_spec c 125) as [->|Hc].
    + split; [discriminate|]. intros H; exfalso; apply H; now left.
    + split; [|reflexivity]. intros _ [E|Hin]; [congruence|].
      now apply (proj1 IH).
Qed.

Lemma upto_last_rbrace_app (mid post : pystr) :
  ~ In 125 post -> upto_last_rbrace (mid ++ [125] ++ post) = Some (mid ++ [125]).
Proof.
  intros Hpost. induction mid as [|c mid IH]; simpl.
  - apply upto_last_rbrace_none in Hpost. now rewrite Hpost.
  - simpl in IH. now rewrite IH.
Qed.

Lemma re_search_braces_span (pre mid post : pystr) :
  ~ In 123 pre -> ~ In 125 post ->
  re_search_braces (pre ++ [123] ++ mid ++ [125] ++ post)
  = Some ([123] ++ mid ++ [125]).
Proof.
  intros Hpre Hpost. induction pre as [|c pre IH]; simpl.
  - change (mid ++ 125 :: post) with (mid ++ [125] ++ post).
    now rewrite upto_last_rbrace_app.
  - destruct (N.eqb_spec c 123) as [->|_].
    + exfalso; apply Hpre; now left.
    + apply IH. intros H; apply Hpre; now right.
Qed.

Lemma re_search_braces_some (s m : pystr) :
  re_search_braces s = Some m -> has_brace_span s /\ exists r, m = 123 :: r.
Proof.
  revert m; induction s as [|c r IH]; simpl; intros m; [discriminate|].
  assert (Hrec : re_search_braces r = Some m ->
                 has_brace_span (c :: r) /\ exists r', m = 123 :: r').
  { intros H. destruct (IH _ H) as [(a & b & c0 & ->) Hm]. split; auto.
    now exists (c :: a), b, c0. }
  destruct (N.eqb_spec c 123) as [->|_]; auto.
  destruct (upto_last_rbrace r) as [m'|] eqn:E; auto.
  intros [= <-]. split; eauto.
  assert (Hin : In 125 r).
  { destruct (in_dec N.eq_dec 125 r) as [Hin|Hn]; auto.
    apply upto_last_rbrace_none in Hn. congruence. }
  apply in_split in Hin as (b & c0 & ->). now exists [], b, c0.
Qed.

Lemma re_search_braces_none (s : pystr) :
  re_search_braces s = None <-> ~ has_brace_span s.
Proof.
  split.
  - induction s as [|c r IH]; simpl; intros H (a & b & c0 & E).
    + destruct a; discriminate.
    + assert (Hr : re_search_braces r = None /\
                   (c = 123 -> upto_last_rbrace r = None)).
      { destruct (N.eqb_spec c 123) as [->|Hc].
        - destruct (upto_last_rbrace r); [discriminate|auto].
        - split; auto. congruence. }
      destruct Hr as [Hr Hup].
      destruct a as [|x a]; simpl in E; injection E as -> ->.
      * specialize (Hup eq_refl). apply upto_last_rbrace_none in Hup.
        apply Hup. apply in_or_app. right. now left.
      * apply (IH Hr). now exists a, b, c0.
  - intros H. destruct (re_search_braces s) as [m|] eqn:E; auto.
    exfalso. apply H. now apply re_search_braces_some in E.
Qed.

(** ** Structured extraction *)

Lemma extract_json_cases (text : pystr) :
  (exists d, extract_json text = Ret (VDict d))
  \/ extract_json text = Raise (Exn ValueError no_json_found).
Proof.
  unfold extract_json.
  destruct (re_search_braces text) as [m|] eqn:E; [|right; reflexivity].
  apply re_search_braces_some in E as [_ [r ->]].
  destruct (json_loads (123 :: r)) as [v|[cls msg]] eqn:EL; simpl.
  - apply json_loads_brace_dict in EL as [d ->]. left; eauto.
  - destruct cls; simpl; try (left; eexists; reflexivity);
      unfold json_loads in EL;
      change (skip_ws (123 :: r)) with (123 :: r) in EL;
      pose proof (json_loads_fuel (123 :: r)) as Hfuel;
      change (skip_ws (123 :: r)) with (123 :: r) in Hfuel;
      destruct (scan_once (S (2 * length (123 :: r))) (123 :: r)) as [? rest| |];
      try congruence; try (destruct (skip_ws rest); discriminate).
Qed.

Ltac not_in :=
  let H := fresh in
  intros H; cbn in H; repeat (destruct H as [H|H]; [discriminate H|]); exact H.

(** C2, as stated, fails: the text below holds exactly one well-formed JSON
    object, the eight characters from offset 8, and prose after it that has
    a closing brace; the search runs on to that brace and [extract_json]
    answers with the error record instead of the object. *)
Lemma extract_json_trailing_brace :
  json_objects_in (pyq "Result: {'a': 1} (mind the } here)") = [(8, 8)%nat]
  /\ json_loads (substring 8 8 (pyq "Result: {'a': 1} (mind the } here)"))
     = Ret (VDict [(py "a", VInt 1)])
  /\ extract_json (pyq "Result: {'a': 1} (mind the } here)")
     = Ret (error_record invalid_json)
  /\ extract_json (pyq "Result: {'a': 1} (mind the } here)")
     <> Ret (VDict [(py "a", VInt 1)]).
Proof. repeat split; try (vm_compute; reflexivity). vm_compute. discriminate. Qed.

(** C2 (amended): when the prose before the JSON object has no opening
    brace and the prose after it no closing brace, [extract_json] returns
    the object, exactly as [json.loads] decodes it. *)
Theorem extract_json_single_object (pre mid post : pystr) (v : value) :
  ~ In 123 pre -> ~ In 125 post ->
  json_loads ([123] ++ mid ++ [125]) = Ret v ->
  extract_json (pre ++ [123] ++ mid ++ [125] ++ post) = Ret v.
Proof.
  intros Hpre Hpost Hv. unfold extract_json.
  rewrite re_search_braces_span by assumption.
  now rewrite Hv.
Qed.

Lemma extract_json_single_object_witness :
  extract_json (py "Sure! " ++ [123] ++ pyq "'rating': 40" ++ [125] ++ py " Hope it helps.")
  = Ret (VDict [(py "rating", VInt 40)]).
Proof.
  apply (extract_json_single_object (py "Sure! ") (pyq "'rating': 40")
           (py " Hope it helps.")).
  - not_in.
  - not_in.
  - vm_compute. reflexivity.
Defined.

(** ** Values *)

Lemma value_induction (P : value -> Prop) :
  P VNone ->
  (forall b, P (VBool b)) ->
  (forall z, P (VInt z)) ->
  (forall lexeme, P (VFloat lexeme)) ->
  (forall s, P (VStr s)) ->
  (forall l, Forall P l -> P (VList l)) ->
  (forall d, Forall (fun kv => P (snd kv)) d -> P (VDict d)) ->
  (forall hex, P (VObjectId hex)) ->
  forall v, P v.
Proof.
  intros HNone HBool HInt HFloat HStr HList HDict HOid.
  fix IH 1. intros [ |b|z|lexeme|s|l|d|hex];
    [apply HNone | apply HBool | apply HInt | apply HFloat | apply HStr
    | | | apply HOid].
  - apply HList. revert l. fix IHl 1. intros [|x l]; constructor.
    + apply IH.
    + apply IHl.
  - apply HDict. revert d. fix IHd 1. intros [|[k x] d]; constructor.
    + apply IH.
    + apply IHd.
Qed.

(** What [convert_objectid] returns can always be serialised. *)
Lemma convert_objectid_serializable (v : value) :
  json_serializable (convert_objectid v) = true.
Proof.
  induction v using value_induction; simpl; auto.
  - rewrite forallb_forall. intros x Hx.
    apply in_map_iff in Hx as (y & <- & Hy).
    rewrite Forall_forall in H. auto.
  - rewrite forallb_forall. intros x Hx.
    apply in_map_iff in Hx as (y & <- & Hy).
    rewrite Forall_forall in H. simpl. auto.
Qed.

Lemma render_convert_objectid (template : analysis) (v : value) :
  render template (convert_objectid v) = Ret (Query template (convert_objectid v)).
Proof.
  unfold render, json_dumps. now rewrite convert_objectid_serializable.
Qed.

(** C3, as stated, fails: on a text without braces [extract_json] raises
    [ValueError], which its handler for [JSONDecodeError] does not catch. *)
Lemma extract_json_no_braces_raises :
  ~ has_brace_span (py "I cannot help with that.")
  /\ extract_json (py "I cannot help with that.")
     = Raise (Exn ValueError no_json_found)
  /\ forall record, extract_json (py "I cannot help with that.") <> Ret record.
Proof.
  split; [apply re_search_braces_none; reflexivity|].
  split; [reflexivity|]. intros record. vm_compute. discriminate.
Qed.

(** C3 (amended): for every raw text without a brace span, [extract_json]
    raises [ValueError("No JSON found in OpenAI response")] to its caller;
    each caller in the repository catches it and returns an error record
    carrying that message: [call_openai] the record itself, the two habit
    functions a list holding it. *)
Theorem extract_json_no_span (text : pystr) :
  ~ has_brace_span text ->
  extract_json text = Raise (Exn ValueError no_json_found)
  /\ (forall svc query response,
        svc (plain_request query) = Responds response ->
        no_choices response = Ret false ->
        first_choice_text response = Ret text ->
        text <> [] ->
        call_openai svc query = Ret (error_record no_json_found))
  /\ (forall template max_tokens normalize svc user_data response,
        svc (sampled_request (Query template (convert_objectid user_data)) max_tokens)
        = Responds response ->
        first_choice_text response = Ret text ->
        text <> [] ->
        identify_habits template max_tokens normalize svc user_data
        = Ret (VList [error_record no_json_found])).
Proof.
  intros Hspan.
  assert (Hraise : extract_json text = Raise (Exn ValueError no_json_found)).
  { unfold extract_json. apply re_search_braces_none in Hspan.
    now rewrite Hspan. }
  split; [exact Hraise|]. split.
  - intros svc query response Hsvc Hchoices Htext Hne.
    unfold call_openai, create. rewrite Hsvc. cbn [bind].
    rewrite Hchoices. cbn [bind]. rewrite Htext. cbn [bind].
    destruct text; [congruence|]. cbn [truthy negb].
    now rewrite Hraise.
  - intros template max_tokens normalize svc user_data response Hsvc Htext Hne.
    unfold identify_habits, create. rewrite render_convert_objectid. cbn [bind].
    rewrite Hsvc. cbn [bind]. rewrite Htext. cbn [bind].
    destruct text; [congruence|]. cbn [truthy negb].
    now rewrite Hraise.
Qed.

Lemma extract_json_no_span_witness :
  extract_json (py "I cannot help with that.") = Raise (Exn ValueError no_json_found)
  /\ call_openai (fun _ => Responds (chat_response (py " I cannot help with that. ")))
       (Query Spending VNone)
     = Ret (error_record no_json_found)
  /\ identify_bad_habits
       (fun _ => Responds (chat_response (py " I cannot help with that. "))) VNone
     = Ret (VList [error_record no_json_found]).
Proof.
  destruct (extract_json_no_span (py "I cannot help with that."))
    as (Hraise & Hcall & Hhabits).
  - apply re_search_braces_none. reflexivity.
  - split; [exact Hraise|]. split.
    + apply Hcall with (response := chat_response (py " I cannot help with that. "));
        [reflexivity | reflexivity | reflexivity | discriminate].
    + apply Hhabits with (response := chat_response (py " I cannot help with that. "));
        [reflexivity | reflexivity | discriminate].
Defined.

(** ** The text-generation client *)

Lemma error_record_has_error (msg : pystr) :
  exists d, error_record msg = VDict d /\ dict_mem d (py "error") = true.
Proof. eexists; split; reflexivity. Qed.

(** Every call of [call_openai] returns a dictionary: an error record, or
    the object extracted from the text of the first choice. *)
Lemma call_openai_cases (svc : service) (query : query) :
  exists d,
    call_openai svc query = Ret (VDict d)
    /\ (dict_mem d (py "error") = true
        \/ exists response response_text,
             svc (plain_request query) = Responds response
             /\ first_choice_text response = Ret response_text
             /\ extract_json response_text = Ret (VDict d)).
Proof.
  unfold call_openai, create.
  assert (Herr : forall e : exn,
             exists d,
               (if is_class OpenAIError e
                then Ret (error_record api_error_message)
                else Ret (error_record (exn_str e))) = Ret (VDict d)
               /\ dict_mem d (py "error") = true).
  { intros e. destruct (is_class OpenAIError e); eexists; split; reflexivity. }
  assert (Hcaught : forall e : exn,
             exists d,
               try_except (Raise e)
                 (fun e => if is_class OpenAIError e
                           then Ret (error_record api_error_message)
                           else Ret (error_record (exn_str e))) = Ret (VDict d)
               /\ (dict_mem d (py "error") = true
                   \/ exists response response_text,
                        svc (plain_request query) = Responds response
                        /\ first_choice_text response = Ret response_text
                        /\ extract_json response_text = Ret (VDict d))).
  { intros e. destruct (Herr e) as (d & Hd & Hmem). exists d. split; auto. }
  destruct (svc (plain_request query)) as [e|response] eqn:Hsvc; cbn [bind];
    [apply Hcaught|].
  destruct (no_choices response) as [[|]|e]; cbn [bind]; try apply Hcaught.
  destruct (first_choice_text response) as [text|e] eqn:Htext; cbn [bind];
    try apply Hcaught.
  destruct text as [|c text]; cbn [truthy negb]; [apply Hcaught|].
  destruct (extract_json_cases (c :: text)) as [[d Hd]|Hraise].
  - rewrite Hd. exists d. split; [reflexivity|]. right. eauto.
  - rewrite Hraise. apply Hcaught.
Qed.

(** C10: whatever the service does, [call_openai] returns a dictionary and
    raises nothing; the dictionary carries an [error] key, or it is the JSON
    object extracted from the text of the first choice. Case by case: a
    service exception, a response without choices, an empty message and a
    text without JSON each give an error record. *)
Theorem call_openai_returns_dict (svc : service) (query : query) :
  (exists d,
     call_openai svc query = Ret (VDict d)
     /\ (dict_mem d (py "error") = true
         \/ exists response response_text,
              svc (plain_request query) = Responds response
              /\ first_choice_text response = Ret response_text
              /\ extract_json response_text = Ret (VDict d)))
  /\ (forall e,
        svc (plain_request query) = Fails e ->
        call_openai svc query
        = Ret (error_record (if is_class OpenAIError e then api_error_message
                             else exn_str e)))
  /\ (forall response,
        svc (plain_request query) = Responds response ->
        no_choices response = Ret true ->
        call_openai svc query = Ret (error_record (py "Empty response from OpenAI API")))
  /\ (forall response,
        svc (plain_request query) = Responds response ->
        no_choices response = Ret false ->
        first_choice_text response = Ret [] ->
        call_openai svc query
        = Ret (error_record (py "OpenAI API returned an empty response")))
  /\ (forall response text,
        svc (plain_request query) = Responds response ->
        no_choices response = Ret false ->
        first_choice_text response = Ret text ->
        text <> [] ->
        ~ has_brace_span text ->
        call_openai svc query = Ret (error_record no_json_found)).
Proof.
  split; [apply call_openai_cases|].
  unfold call_openai, create. repeat split.
  - intros e ->. cbn [bind try_except]. now destruct (is_class OpenAIError e).
  - intros response -> Hnone. cbn [bind]. rewrite Hnone. reflexivity.
  - intros response -> Hsome Hblank. cbn [bind]. rewrite Hsome. cbn [bind].
    rewrite Hblank. reflexivity.
  - intros response text -> Hsome Htext Hne Hspan. cbn [bind]. rewrite Hsome.
    cbn [bind]. rewrite Htext. cbn [bind].
    destruct text as [|c text]; [congruence|]. cbn [truthy negb].
    unfold extract_json. apply re_search_braces_none in Hspan.
    rewrite Hspan. reflexivity.
Qed.

Lemma call_openai_returns_dict_witness :
  call_openai service_down (Query Spending VNone) = Ret (error_record api_error_message)
  /\ call_openai service_no_choices (Query Spending VNone)
     = Ret (error_record (py "Empty response from OpenAI API"))
  /\ call_openai service_blank (Query Spending VNone)
     = Ret (error_record (py "OpenAI API returned an empty response"))
  /\ call_openai service_prose (Query Spending VNone) = Ret (error_record no_json_found).
Proof.
  split; [|split; [|split]].
  - destruct (call_openai_returns_dict service_down (Query Spending VNone))
      as (_ & Hraised & _).
    apply (Hraised (Exn OpenAIError (py "Rate limit reached"))). reflexivity.
  - destruct (call_openai_returns_dict service_no_choices (Query Spending VNone))
      as (_ & _ & Hnone & _).
    apply (Hnone (VDict [(py "choices", VList [])])); reflexivity.
  - destruct (call_openai_returns_dict service_blank (Query Spending VNone))
      as (_ & _ & _ & Hblank & _).
    apply (Hblank (chat_response (py "   "))); reflexivity.
  - destruct (call_openai_returns_dict service_prose (Query Spending VNone))
      as (_ & _ & _ & _ & Hprose).
    apply (Hprose (chat_response (py "I cannot help with that."))
             (py "I cannot help with that."));
      try reflexivity; [discriminate|]. apply re_search_braces_none. reflexivity.
Defined.

(** ** The habit lists *)

Lemma good_inner_loop_spec (items : list (pystr * value)) (acc : list value) :
  good_inner_loop items acc = acc ++ first_elements (lists_among (map snd items)).
Proof.
  revert acc; induction items as [|[sub_key v] items IH]; intros acc; simpl.
  - now rewrite app_nil_r.
  - destruct v; rewrite IH; auto.
    unfold extend_first, first_elements, lists_among. cbn [map flat_map app].
    now rewrite <- app_assoc.
Qed.

Lemma first_elements_app (a b : list (list value)) :
  first_elements (a ++ b) = first_elements a ++ first_elements b.
Proof. unfold first_elements. apply flat_map_app. Qed.

Lemma good_outer_loop_spec (parsed : dict) (keys : list pystr) :
  (forall key, In key keys ->
     match dict_get parsed key with
     | Some (VDict _) | None => True
     | Some _ => False
     end) ->
  forall acc,
    good_outer_loop keys (VDict parsed) acc
    = Ret (acc ++ first_elements
                    (flat_map (fun key =>
                                 match dict_get parsed key with
                                 | Some (VDict section) => lists_among (map snd section)
                                 | _ => []
                                 end) keys)).
Proof.
  induction keys as [|key keys IH]; intros Hshape acc; simpl.
  - now rewrite app_nil_r.
  - assert (Hrest : forall k, In k keys ->
              match dict_get parsed k with
              | Some (VDict _) | None => True
              | Some _ => False
              end) by (intros k Hk; apply Hshape; now right).
    specialize (Hshape key (or_introl eq_refl)).
    unfold dict_mem. destruct (dict_get parsed key) as [section|]; simpl.
    + destruct section; try contradiction. simpl.
      rewrite (IH Hrest), good_inner_loop_spec, first_elements_app.
      now rewrite app_assoc.
    + apply (IH Hrest).
Qed.

Lemma bad_loop_spec (parsed : dict) (keys : list pystr) (acc : list value) :
  bad_loop keys (VDict parsed) acc
  = Ret (acc ++ first_elements
                  (flat_map (fun key =>
                               match dict_get parsed key with
                               | Some v => lists_among [v]
                               | None => []
                               end) keys)).
Proof.
  revert acc; induction keys as [|key keys IH]; intros acc; simpl.
  - now rewrite app_nil_r.
  - unfold dict_mem. destruct (dict_get parsed key) as [items|]; simpl.
    + destruct items as [ | | | | |[|x l]| | ]; rewrite IH; auto.
      unfold extend_first, first_elements. simpl. now rewrite <- app_assoc.
    + apply IH.
Qed.

Lemma selected_length (sublists : list (list value)) :
  (length (selected sublists) <= 4)%nat
  /\ ((4 <= length (first_elements sublists))%nat ->
      length (selected sublists) = 4%nat).
Proof.
  unfold selected. rewrite length_firstn. lia.
Qed.

(** C5: on a parsed habit object the normaliser returns the first element of
    every non-empty list found under the declared keys, in the order met,
    cut to four; so the result never has more than four elements and has
    exactly four once four lists or more (six, say) are populated. For good
    habits the object has the shape asked for ([good_shape]); for bad habits
    the rule gives the result whenever it selects something. *)
Theorem normalize_selects_first_elements (parsed : dict) :
  (good_shape parsed ->
     normalize_good_habits (VDict parsed)
     = Ret (VList (selected (good_sublists parsed))))
  /\ (first_elements (bad_sublists parsed) <> [] ->
        normalize_bad_habits (VDict parsed)
        = Ret (VList (selected (bad_sublists parsed))))
  /\ (length (selected (good_sublists parsed)) <= 4)%nat
  /\ (length (selected (bad_sublists parsed)) <= 4)%nat
  /\ ((4 <= length (first_elements (good_sublists parsed)))%nat ->
        length (selected (good_sublists parsed)) = 4%nat).
Proof.
  split; [|split; [|split; [|split]]].
  - intros Hshape. unfold normalize_good_habits.
    now rewrite (good_outer_loop_spec parsed good_habits_keys Hshape).
  - intros Hsome. unfold normalize_bad_habits. rewrite bad_loop_spec.
    cbn [bind app]. fold (bad_sublists parsed). unfold selected.
    destruct (first_elements (bad_sublists parsed)); [congruence|reflexivity].
  - apply selected_length.
  - apply selected_length.
  - apply selected_length.
Qed.

Lemma normalize_selects_first_elements_witness :
  normalize_good_habits (VDict (parsed_object six_populated))
  = Ret (VList [ VDict [(py "category", VStr (py "index funds"))];
                 VDict [(py "area", VStr (py "courses"))];
                 VDict [(py "type", VStr (py "term cover"))];
                 VDict [(py "skill", VStr (py "sql"))] ])
  /\ normalize_bad_habits (VDict (parsed_object two_populated))
     = Ret (VList [ VDict [(py "loanType", VStr (py "card"))];
                    VDict [(py "currentItem", VStr (py "cab"))] ])
  /\ length (selected (good_sublists (parsed_object six_populated))) = 4%nat
  /\ identify_good_habits (fun _ => Responds (chat_response six_populated))
       (VDict stored_user)
     = normalize_good_habits (VDict (parsed_object six_populated)).
Proof.
  destruct (normalize_selects_first_elements (parsed_object six_populated))
    as (Hgood & _ & _ & _ & Hfour).
  destruct (normalize_selects_first_elements (parsed_object two_populated))
    as (_ & Hbad & _).
  split; [|split; [|split]].
  - rewrite Hgood; [vm_compute; reflexivity|].
    intros key [<-|[<-|[]]]; vm_compute; exact I.
  - rewrite Hbad; [vm_compute; reflexivity|]. vm_compute. discriminate.
  - apply Hfour. vm_compute. lia.
  - vm_compute. reflexivity.
Defined.

(** The bad-habits normaliser never returns an empty list: with nothing
    selected it returns the one record [no_bad_habits]. *)
Lemma normalize_bad_habits_nothing_selected (parsed : dict) :
  first_elements (bad_sublists parsed) = [] ->
  normalize_bad_habits (VDict parsed) = Ret (VList [no_bad_habits]).
Proof.
  intros Hnone. unfold normalize_bad_habits. rewrite bad_loop_spec.
  cbn [bind app]. fold (bad_sublists parsed). now rewrite Hnone.
Qed.

(** The good-habits normaliser returns the empty list in that case. *)
Lemma normalize_good_habits_nothing_selected (parsed : dict) :
  good_shape parsed ->
  first_elements (good_sublists parsed) = [] ->
  normalize_good_habits (VDict parsed) = Ret (VList []).
Proof.
  intros Hshape Hnone. unfold normalize_good_habits.
  rewrite (good_outer_loop_spec parsed good_habits_keys Hshape).
  cbn [bind app]. fold (good_sublists parsed). now rewrite Hnone.
Qed.

(** The habit functions return what the normaliser returns, once the text
    of the first choice yields an object without an [error] key. *)
Lemma identify_habits_normalizes
  (template : analysis) (max_tokens : Z) (normalize : value -> result value)
  (svc : service) (user_data response : value) (text : pystr) (parsed : dict)
  (out : value) :
  svc (sampled_request (Query template (convert_objectid user_data)) max_tokens)
  = Responds response ->
  first_choice_text response = Ret text ->
  text <> [] ->
  extract_json text = Ret (VDict parsed) ->
  dict_mem parsed (py "error") = false ->
  normalize (VDict parsed) = Ret out ->
  identify_habits template max_tokens normalize svc user_data = Ret out.
Proof.
  intros Hsvc Htext Hne Hparsed Hok Hout.
  unfold identify_habits, create. rewrite render_convert_objectid. cbn [bind].
  rewrite Hsvc. cbn [bind]. rewrite Htext. cbn [bind].
  destruct text; [congruence|]. cbn [truthy negb].
  rewrite Hparsed. cbn [bind py_in]. rewrite Hok, Hout. reflexivity.
Qed.

(** C4 fails for good habits: with every list empty [identify_good_habits]
    returns the empty list, where [identify_bad_habits] returns the one
    explanatory record. *)
Theorem identify_good_habits_all_empty :
  normalize_good_habits (VDict (parsed_object all_empty_good)) = Ret (VList [])
  /\ identify_good_habits (fun _ => Responds (chat_response all_empty_good)) (VDict [])
     = Ret (VList [])
  /\ identify_bad_habits (fun _ => Responds (chat_response all_empty_bad)) (VDict [])
     = Ret (VList [no_bad_habits]).
Proof. repeat split; vm_compute; reflexivity. Qed.

(** ** The orchestrator *)

Lemma set_fields_frame (fields doc : dict) (k : pystr) :
  ~ In k (map fst fields) -> dict_get (set_fields doc fields) k = dict_get doc k.
Proof.
  unfold set_fields. revert doc.
  induction fields as [|[k0 v0] fields IH]; intros doc Hk; simpl; [reflexivity|].
  rewrite IH by (intros H; apply Hk; now right).
  apply dict_get_set_other. intros ->. apply Hk. now left.
Qed.

Lemma update_first_length (oid : pystr) (fields : dict) (docs : list dict) :
  length (update_first oid fields docs) = length docs.
Proof.
  induction docs as [|doc docs IH]; simpl; [reflexivity|].
  destruct (has_id oid doc); simpl; auto.
Qed.

Lemma update_first_frame (oid : pystr) (fields : dict) (docs : list dict) :
  forall i doc,
    nth_error docs i = Some doc ->
    exists doc',
      nth_error (update_first oid fields docs) i = Some doc'
      /\ (doc' = doc \/ doc' = set_fields doc fields).
Proof.
  induction docs as [|d docs IH]; intros [|i] doc; simpl; try discriminate.
  - intros [= ->]. destruct (has_id oid doc); simpl; eauto.
  - intros Hi. destruct (has_id oid d); simpl; eauto.
Qed.

Section Run.

Variable svc : service.
Variable user : dict.

(** The stage values and the merged fields of the run on [user]. *)
Let r : stage_values := run_stages svc user (convert_objectid (VDict user)).
Let merged : dict := update_data user r.

Lemma update_data_field (field : pystr) :
  In field derived_fields ->
  dict_get merged field = Some (py_or (stage_value r field) (prior_value user field)).
Proof.
  intros [<-|[<-|[<-|[<-|[<-|[]]]]]]; reflexivity.
Qed.

Lemma update_data_keys : map fst merged = derived_fields.
Proof. reflexivity. Qed.

(** What a run leaves behind: nothing was sent, or the one [$set] with the
    merged fields followed by the read of the updated record. *)
Lemma analyze_and_update_user_world (w : world) :
  snd (analyze_and_update_user svc user w) = w
  \/ exists oid,
       snd (analyze_and_update_user svc user w)
       = MkWorld (update_first oid merged (users_collection w))
           (oplog w ++ [UpdateOneSet oid merged; FindOne oid None]) (refused w).
Proof.
  unfold analyze_and_update_user, bindM, lift.
  destruct (json_dumps (convert_objectid (VDict user))); [|now left].
  destruct (py_getitem (VDict user) (Key (py "_id"))) as [id|]; [|now left].
  destruct (ObjectId id) as [oid|]; [|now left].
  unfold update_one_set. fold r. fold merged.
  destruct (negb (eight_byte_ints (VDict merged))); [now left|].
  destruct (refused w (users_collection w) oid merged); [now left|].
  right. exists oid. unfold find_one, sent.
  cbn [users_collection oplog refused]. rewrite <- app_assoc.
  destruct (get_email _); reflexivity.
Qed.

(** C6: in every run and for each of the five derived fields, the merged
    value, which is the value the run sends to the store under that
    field, is this run's stage value when that value is truthy and the
    prior stored value otherwise; an error record, or a list holding one,
    is truthy and is taken. *)
Theorem merge_takes_truthy_stage_value (field : pystr) :
  In field derived_fields ->
  dict_get merged field
  = Some (if truthy (stage_value r field) then stage_value r field
          else prior_value user field)
  /\ (forall msg,
        stage_value r field = error_record msg
        \/ stage_value r field = VList [error_record msg] ->
        dict_get merged field = Some (stage_value r field))
  /\ (forall w op,
        In op (sent_by (analyze_and_update_user svc user) w) ->
        forall oid fields, op = UpdateOneSet oid fields -> fields = merged).
Proof.
  intros Hfield. split; [|split].
  - now rewrite update_data_field.
  - intros msg Herr. rewrite update_data_field by assumption.
    unfold py_or. now destruct Herr as [-> | ->].
  - intros w op Hop oid fields ->. unfold sent_by in Hop.
    destruct (analyze_and_update_user_world w) as [Hw | [oid' Hw]];
      rewrite Hw in Hop; cbn [oplog] in Hop.
    + rewrite skipn_all in Hop. destruct Hop.
    + rewrite skipn_length_app in Hop.
      destruct Hop as [[= _ <-]|[[=]|[]]]. reflexivity.
Qed.

(** C7: the only write of a run is one [$set] on the record's identifier
    whose update document has exactly the five derived keys; the
    collection keeps its records, and in every record every field other
    than those five reads as before. *)
Theorem write_is_field_scoped (w : world) :
  (sent_by (analyze_and_update_user svc user) w = []
   \/ exists oid,
        sent_by (analyze_and_update_user svc user) w
        = [UpdateOneSet oid merged; FindOne oid None])
  /\ map fst merged = derived_fields
  /\ length (users_collection (snd (analyze_and_update_user svc user w)))
     = length (users_collection w)
  /\ forall i doc,
       nth_error (users_collection w) i = Some doc ->
       exists doc',
         nth_error (users_collection (snd (analyze_and_update_user svc user w))) i
         = Some doc'
         /\ forall k, ~ In k derived_fields -> dict_get doc' k = dict_get doc k.
Proof.
  unfold sent_by.
  destruct (analyze_and_update_user_world w) as [-> | [oid ->]];
    cbn [users_collection oplog].
  - split; [left; apply skipn_all|]. split; [reflexivity|].
    split; [reflexivity|]. intros i doc Hi. eauto.
  - split; [right; exists oid; apply skipn_length_app|].
    split; [reflexivity|]. split; [apply update_first_length|].
    intros i doc Hi.
    destruct (update_first_frame oid merged _ i doc Hi)
      as (doc' & Hdoc' & [-> | ->]); eexists; split; try eassumption; auto.
    intros k Hk. apply set_fields_frame. now rewrite update_data_keys.
Qed.

(** When every call to the service raises an [OpenAIError], each stage
    returns an error record and the merge takes all five of them, whatever
    the record held. *)
Lemma all_stages_fail :
  (forall rq, exists msg, svc rq = Fails (Exn OpenAIError msg)) ->
  merged
  = [ (py "spend_analysis", error_record api_error_message);
      (py "longterm", error_record api_error_message);
      (py "shortterm", error_record api_error_message);
      (py "good_habits", VList [error_record api_error_message]);
      (py "bad_habits", VList [error_record api_error_message]) ].
Proof.
  intros Hdown.
  assert (Hcall : forall q, call_openai svc q = Ret (error_record api_error_message)).
  { intros q. unfold call_openai, create.
    destruct (Hdown (plain_request q)) as [msg ->]. reflexivity. }
  assert (Hhabits : forall template max_tokens normalize v,
             identify_habits template max_tokens normalize svc v
             = Ret (VList [error_record api_error_message])).
  { intros template max_tokens normalize v. unfold identify_habits, create.
    rewrite render_convert_objectid. cbn [bind].
    destruct (Hdown (sampled_request (Query template (convert_objectid v)) max_tokens))
      as [msg ->]. reflexivity. }
  unfold merged, r, update_data, run_stages, analyze_spending,
    generate_longterm_goals, generate_shortterm_goals, identify_good_habits,
    identify_bad_habits.
  cbn [spend_analysis longterm shortterm good_habits bad_habits].
  rewrite render_convert_objectid. cbn [bind]. rewrite !Hcall, !Hhabits.
  cbn [or_fallback]. unfold render. cbn. rewrite !Hcall. reflexivity.
Qed.

End Run.

Lemma merge_takes_truthy_stage_value_witness :
  dict_get
    (update_data stored_user
       (run_stages service_down stored_user (convert_objectid (VDict stored_user))))
    (py "longterm")
  = Some (error_record api_error_message).
Proof.
  destruct (merge_takes_truthy_stage_value service_down stored_user (py "longterm"))
    as (_ & Herr & _).
  - right; left; reflexivity.
  - rewrite (Herr api_error_message); [reflexivity|]. left. reflexivity.
Defined.

Lemma write_is_field_scoped_witness :
  exists doc',
    nth_error
      (users_collection
         (snd (analyze_and_update_user service_down stored_user
                 (World [stored_user] [])))) 0
    = Some doc'
    /\ dict_get doc' (py "financial") = dict_get stored_user (py "financial").
Proof.
  destruct (write_is_field_scoped service_down stored_user (World [stored_user] []))
    as (_ & _ & _ & Hframe).
  destruct (Hframe 0%nat stored_user eq_refl) as (doc' & Hdoc' & Hkeep).
  exists doc'. split; [exact Hdoc'|].
  apply Hkeep. not_in.
Defined.

(** C1 fails on the code: with the service down in all five stages, the
    merged fields of [stored_user] are five error records, not the values
    stored before, and the record in the collection has lost them. *)
Theorem all_stages_fail_overwrites_prior :
  update_data stored_user
    (run_stages service_down stored_user (convert_objectid (VDict stored_user)))
  = [ (py "spend_analysis", error_record api_error_message);
      (py "longterm", error_record api_error_message);
      (py "shortterm", error_record api_error_message);
      (py "good_habits", VList [error_record api_error_message]);
      (py "bad_habits", VList [error_record api_error_message]) ]
  /\ users_collection
       (snd (analyze_and_update_user service_down stored_user (World [stored_user] [])))
     = [ [ (py "_id", VObjectId (py "0123456789abcdef01234567"));
           (py "email", VStr (py "asha@example.com"));
           (py "financial",
            VDict [ (py "monthlyIncome", VInt 50000);
                    (py "expenses", VDict [(py "essentials", VInt 40000)]) ]);
           (py "spend_analysis", error_record api_error_message);
           (py "longterm", error_record api_error_message);
           (py "shortterm", error_record api_error_message);
           (py "good_habits", VList [error_record api_error_message]);
           (py "bad_habits", VList [error_record api_error_message]) ] ]
  /\ (forall field, In field derived_fields ->
        dict_get stored_user field <> Some (error_record api_error_message)
        /\ dict_get stored_user field <> Some (VList [error_record api_error_message])).
Proof.
  split; [vm_compute; reflexivity|]. split; [vm_compute; reflexivity|].
  intros field [<-|[<-|[<-|[<-|[<-|[]]]]]]; split; vm_compute; discriminate.
Qed.

(** ** What [ObjectId] takes *)

Lemma hex_no_space (c : N) : is_hex c = true -> is_ascii_space c = false.
Proof.
  intros H. destruct (is_ascii_space c) eqn:E; [exfalso|reflexivity].
  unfold is_hex, is_digit, is_ascii_space in *.
  rewrite ?orb_true_iff, ?andb_true_iff, ?N.leb_le, ?N.eqb_eq in *. lia.
Qed.

(** A string of hexadecimal digits, an even number of them, is read as it
    is. *)
Lemma fromhex_hex (s : pystr) :
  forallb is_hex s = true -> Nat.even (length s) = true ->
  fromhex s = Some (map lower_hex s).
Proof.
  assert (H : forall n s, (length s <= n)%nat ->
                          forallb is_hex s = true -> Nat.even (length s) = true ->
                          fromhex s = Some (map lower_hex s)).
  { induction n as [|n IH]; intros [|c [|d r]] Hn Hhex Heven;
      cbn [length] in *; try reflexivity; try discriminate; try lia.
    cbn [forallb] in Hhex.
    apply andb_true_iff in Hhex as [Hc Hhex].
    apply andb_true_iff in Hhex as [Hd Hhex].
    cbn [fromhex map]. rewrite (hex_no_space c Hc), Hc, Hd. cbn [andb].
    rewrite (IH r); [reflexivity | lia | exact Hhex | exact Heven]. }
  apply (H (length s)). lia.
Qed.


(** [ObjectId] on a string: the two outcomes, and what [is_valid] says. *)
Lemma ObjectId_str_cases (s : pystr) :
  (exists hex,
     length s = 24%nat /\ fromhex s = Some hex
     /\ ObjectId (VStr s) = Ret hex /\ ObjectId_is_valid (VStr s) = true)
  \/ ((length s <> 24%nat \/ fromhex s = None)
      /\ ObjectId_is_valid (VStr s) = false
      /\ exists msg, ObjectId (VStr s) = Raise (Exn InvalidId msg)).
Proof.
  unfold ObjectId_is_valid, ObjectId.
  destruct (Nat.eqb_spec (length s) 24) as [Hlen|Hlen].
  - destruct (fromhex s) as [hex|] eqn:Hhex.
    + left. exists hex. destruct s; [discriminate|]. auto.
    + right. rewrite andb_false_r. eauto.
  - right. rewrite andb_false_r. eauto.
Qed.

Lemma ObjectId_raises (oid : value) (e : exn) :
  ObjectId oid = Raise e -> forall status_code, exn_cls e <> HTTPException status_code.
Proof.
  destruct oid as [ | | | |s| | | ]; cbn [ObjectId];
    try discriminate; try (intros [= <-]; discriminate).
  destruct (if Nat.eqb (length s) 24 then fromhex s else None); [discriminate|].
  intros [= <-]. discriminate.
Qed.

(** A string of 24 hexadecimal digits is taken, and stands for the
    identifier with these digits in lower case. *)
Lemma valid_oid_str_accepted (user_id : pystr) :
  valid_oid_str user_id = true ->
  ObjectId_is_valid (VStr user_id) = true
  /\ ObjectId (VStr user_id) = Ret (map lower_hex user_id).
Proof.
  unfold valid_oid_str. intros Hvalid.
  apply andb_true_iff in Hvalid as [Hlen Hhex]. apply Nat.eqb_eq in Hlen.
  assert (Hread : fromhex user_id = Some (map lower_hex user_id))
    by (apply fromhex_hex; [exact Hhex | now rewrite Hlen]).
  destruct (ObjectId_str_cases user_id)
    as [(hex & _ & Hs & -> & ->) | ([Hl|Hn] & _)].
  - rewrite Hread in Hs. injection Hs as <-. split; reflexivity.
  - contradiction.
  - rewrite Hread in Hn. discriminate.
Qed.

(** ** The read-only analysis endpoint *)

(** [analyze_spending] never raises: what it passes to [json.dumps] can be
    serialised and [call_openai] turns every failure into a record. *)
Lemma analyze_spending_returns (svc : service) (user_data : value) :
  exists d, analyze_spending svc user_data = Ret (VDict d).
Proof.
  unfold analyze_spending. rewrite render_convert_objectid. cbn [bind].
  destruct (call_openai_cases svc (Query Spending (convert_objectid user_data)))
    as (d & Hd & _).
  eauto.
Qed.

(** So the handler of [analyze_user_finances] that answers 500 is never
    entered. *)
Lemma analyze_user_finances_never_500
  (svc : service) (user_id : pystr) (w : world) (detail : pystr) :
  fst (analyze_user_finances svc user_id w) <> Raise (Exn (HTTPException 500) detail).
Proof.
  unfold analyze_user_finances, http_error, bindM, lift, find_one.
  destruct (ObjectId_is_valid (VStr user_id)); cbn [negb fst]; [|discriminate].
  destruct (ObjectId (VStr user_id)) as [oid|e] eqn:Hoid; cbn [fst].
  - destruct (option_map _ _) as [doc|]; cbn [fst]; [|discriminate].
    destruct (truthy (VDict doc)); cbn [negb fst]; [|discriminate].
    destruct (truthy (dict_get_default doc (py "financial") (VDict [])));
      cbn [negb fst]; [|discriminate].
    destruct (analyze_spending_returns svc
                (dict_get_default doc (py "financial") (VDict []))) as [d ->].
    discriminate.
  - intros [= ->]. now apply (ObjectId_raises _ _ Hoid 500%Z).
Qed.

(** C8 fails on the code: when the single stage fails (the service raises,
    its answer has no choices or only blanks, or no JSON can be extracted)
    the endpoint returns a success payload whose [analysis] is the error
    record; no [HTTPException] with status 500 is raised. *)
Theorem analysis_endpoint_returns_error_payload :
  analysis_of service_down = success_payload api_error_message
  /\ analysis_of service_no_choices
     = success_payload (py "Empty response from OpenAI API")
  /\ analysis_of service_blank
     = success_payload (py "OpenAI API returned an empty response")
  /\ analysis_of service_prose = success_payload no_json_found
  /\ analysis_of service_garbled = success_payload invalid_json.
Proof. repeat split; vm_compute; reflexivity. Qed.

(** ** Identifier validation *)









(* ===================================================================== *)
(** * Further properties of the code *)
(* ===================================================================== *)

(** ** [convert_objectid] *)

Lemma convert_objectid_fixed (v : value) :
  json_serializable v = true -> convert_objectid v = v.
Proof.
  induction v using value_induction; simpl; auto; try discriminate.
  - intros Hall. f_equal. rewrite forallb_forall in Hall.
    rewrite Forall_forall in H.
    rewrite <- (map_id l) at 2. apply map_ext_in. auto.
  - intros Hall. f_equal. rewrite forallb_forall in Hall.
    rewrite Forall_forall in H.
    rewrite <- (map_id d) at 2. apply map_ext_in.
    intros [k x] Hkx. simpl. f_equal. apply (H (k, x) Hkx). apply (Hall (k, x) Hkx).
Qed.

(** X1: [convert_objectid] leaves no [ObjectId] in its result, which
    [json.dumps] therefore accepts; it keeps the keys of a dictionary and
    their order; applying it twice is applying it once; and a value that
    [json.dumps] accepts already comes back unchanged. *)
Theorem convert_objectid_clean (v : value) :
  json_serializable (convert_objectid v) = true
  /\ convert_objectid (convert_objectid v) = convert_objectid v
  /\ (forall d, v = VDict d ->
        exists d', convert_objectid v = VDict d' /\ map fst d' = map fst d)
  /\ (json_serializable v = true -> convert_objectid v = v).
Proof.
  split; [apply convert_objectid_serializable|].
  split; [apply convert_objectid_fixed, convert_objectid_serializable|].
  split; [|apply convert_objectid_fixed].
  intros d ->. simpl. eexists. split; [reflexivity|].
  rewrite map_map. reflexivity.
Qed.

Lemma convert_objectid_clean_witness :
  convert_objectid (VDict [(py "tags", VList [VStr (py "a"); VInt 1])])
  = VDict [(py "tags", VList [VStr (py "a"); VInt 1])]
  /\ exists d',
       convert_objectid (VDict stored_user) = VDict d'
       /\ map fst d' = map fst stored_user.
Proof.
  split.
  - apply (convert_objectid_clean (VDict [(py "tags", VList [VStr (py "a"); VInt 1])])).
    reflexivity.
  - apply (convert_objectid_clean (VDict stored_user)). reflexivity.
Defined.

(** ** What the decoder produces *)

Lemma dict_set_serializable (d : dict) (k : pystr) (v : value) :
  forallb (fun kv => json_serializable (snd kv)) d = true ->
  json_serializable v = true ->
  forallb (fun kv => json_serializable (snd kv)) (dict_set d k v) = true.
Proof.
  intros Hd Hv. induction d as [|[k0 v0] d IH]; simpl in *.
  - now rewrite Hv.
  - apply andb_true_iff in Hd as [H0 Hd].
    destruct (str_eqb k0 k); simpl; rewrite ?Hv, ?H0, ?Hd; auto.
Qed.

Lemma dict_of_pairs_serializable (pairs : list (pystr * value)) :
  forallb (fun kv => json_serializable (snd kv)) pairs = true ->
  json_serializable (VDict (dict_of_pairs pairs)) = true.
Proof.
  unfold dict_of_pairs. simpl.
  assert (H : forall acc,
             forallb (fun kv => json_serializable (snd kv)) acc = true ->
             forallb (fun kv => json_serializable (snd kv)) pairs = true ->
             forallb (fun kv => json_serializable (snd kv))
               (fold_left (fun d kv => dict_set d (fst kv) (snd kv)) pairs acc) = true).
  { induction pairs as [|[k v] pairs IH]; intros acc Hacc Hp; simpl in *; auto.
    apply andb_true_iff in Hp as [Hv Hp].
    apply IH; auto. now apply dict_set_serializable. }
  now apply H.
Qed.

Lemma scan_atom_serializable (s r : pystr) (v : value) :
  scan_atom s = Scanned v r -> json_serializable v = true.
Proof.
  unfold scan_atom, match_number.
  repeat match goal with
  | |- context [strip_prefix ?p s] => destruct (strip_prefix p s)
  | |- context [match_integer s] => destruct (match_integer s) as [[? ?]|]
  | |- context [match fst ?x with _ => _ end] => destruct (fst x)
  end; intros [= <- _] || discriminate; reflexivity.
Qed.

Lemma scan_serializable (fuel : nat) :
  (forall s v r, scan_once fuel s = Scanned v r -> json_serializable v = true)
  /\ (forall s pairs v r,
        forallb (fun kv => json_serializable (snd kv)) pairs = true ->
        object_loop fuel s pairs = Scanned v r -> json_serializable v = true)
  /\ (forall s values v r,
        forallb json_serializable values = true ->
        array_loop fuel s values = Scanned v r -> json_serializable v = true).
Proof.
  induction fuel as [|fuel (IHscan & IHobject & IHarray)].
  - repeat split; intros; discriminate.
  - repeat split.
    + intros [|c s] v r; cbn [scan_once]; [discriminate|].
      destruct (c =? 34).
      { destruct (scanstring s); intros [= <- _] || discriminate. reflexivity. }
      destruct (c =? 123).
      { destruct (skip_ws s) as [|x r1]; [discriminate|].
        destruct (x =? 125); [intros [= <- _]; reflexivity|].
        destruct (x =? 34); [|discriminate]. now apply IHobject. }
      destruct (c =? 91).
      { destruct (skip_ws s) as [|x r1]; [discriminate|].
        destruct (x =? 93); [intros [= <- _]; reflexivity|]. now apply IHarray. }
      apply scan_atom_serializable.
    + intros s pairs v r Hpairs. cbn [object_loop].
      destruct (scanstring s) as [key r0| |]; try discriminate.
      destruct (skip_ws r0) as [|c r1]; try discriminate.
      destruct (c =? 58); try discriminate.
      destruct (scan_once fuel (skip_ws r1)) as [v0 r2| |] eqn:Hv0; try discriminate.
      apply IHscan in Hv0.
      assert (Hpairs' : forallb (fun kv => json_serializable (snd kv))
                          (pairs ++ [(key, v0)]) = true).
      { rewrite forallb_app, Hpairs. simpl. now rewrite Hv0. }
      destruct (skip_ws r2) as [|x r3]; try discriminate.
      destruct (x =? 125);
        [intros [= <- _]; now apply dict_of_pairs_serializable|].
      destruct (x =? 44); try discriminate.
      destruct (skip_ws r3) as [|q r4]; try discriminate.
      destruct (q =? 34); try discriminate.
      now apply IHobject.
    + intros s values v r Hvalues. cbn [array_loop].
      destruct (scan_once fuel s) as [v0 r0| |] eqn:Hv0; try discriminate.
      apply IHscan in Hv0.
      assert (Hvalues' : forallb json_serializable (values ++ [v0]) = true).
      { rewrite forallb_app, Hvalues. simpl. now rewrite Hv0. }
      destruct (skip_ws r0) as [|x r1]; try discriminate.
      destruct (x =? 93); [intros [= <- _]; exact Hvalues'|].
      destruct (x =? 44); try discriminate.
      now apply IHarray.
Qed.

Lemma json_loads_brace_serializable (r : pystr) (v : value) :
  json_loads (123 :: r) = Ret v -> json_serializable v = true.
Proof.
  unfold json_loads. change (skip_ws (123 :: r)) with (123 :: r).
  destruct (scan_once (S (2 * length (123 :: r))) (123 :: r)) as [v0 rest| |] eqn:E;
    try discriminate.
  destruct (skip_ws rest); try discriminate.
  intros [= <-]. eapply (proj1 (scan_serializable _)); eauto.
Qed.


Lemma extract_json_serializable (text : pystr) (v : value) :
  extract_json text = Ret v -> json_serializable v = true.
Proof.
  unfold extract_json.
  destruct (re_search_braces text) as [m|] eqn:E; [|discriminate].
  apply re_search_braces_some in E as [_ [r ->]].
  destruct (json_loads (123 :: r)) as [v0|e] eqn:EL; cbn [try_except].
  - intros [= <-]. now apply json_loads_brace_serializable in EL.
  - destruct (is_class JSONDecodeError e); [intros [= <-]; reflexivity|discriminate].
Qed.

(** ** Structured extraction, continued *)



(** ** The stages *)

Lemma call_openai_serializable (svc : service) (query : query) :
  exists d, call_openai svc query = Ret (VDict d)
            /\ json_serializable (VDict d) = true.
Proof.
  unfold call_openai, create.
  assert (Hcaught : forall e : exn,
             exists d,
               try_except (Raise e)
                 (fun e => if is_class OpenAIError e
                           then Ret (error_record api_error_message)
                           else Ret (error_record (exn_str e))) = Ret (VDict d)
               /\ json_serializable (VDict d) = true).
  { intros e. cbn [try_except].
    destruct (is_class OpenAIError e); eexists; split; reflexivity. }
  destruct (svc (plain_request query)) as [e|response]; cbn [bind];
    [apply Hcaught|].
  destruct (no_choices response) as [[|]|e]; cbn [bind]; try apply Hcaught.
  destruct (first_choice_text response) as [text|e]; cbn [bind]; try apply Hcaught.
  destruct text as [|c text]; cbn [truthy negb]; [apply Hcaught|].
  destruct (extract_json_cases (c :: text)) as [[d Hd]|Hraise].
  - rewrite Hd. exists d. split; [reflexivity|].
    now apply extract_json_serializable in Hd.
  - rewrite Hraise. apply Hcaught.
Qed.

Lemma analyze_spending_serializable (svc : service) (user_data : value) :
  exists d, analyze_spending svc user_data = Ret (VDict d)
            /\ json_serializable (VDict d) = true.
Proof.
  unfold analyze_spending. rewrite render_convert_objectid. cbn [bind].
  apply call_openai_serializable.
Qed.

Lemma goals_return (svc : service) (template : analysis) (v : value) :
  json_serializable v = true ->
  exists d, (query <- render template v ;; call_openai svc query) = Ret (VDict d)
            /\ json_serializable (VDict d) = true.
Proof.
  intros Hv. unfold render, json_dumps. rewrite Hv. cbn [bind].
  apply call_openai_serializable.
Qed.

(** Whatever holds of a one-record error list and of what the normaliser
    returns holds of what a habit function returns, and it always returns. *)
Lemma identify_habits_result
  (P : value -> Prop) (template : analysis) (max_tokens : Z)
  (normalize : value -> result value) (svc : service) (user_data : value) :
  (forall msg, P (VList [error_record msg])) ->
  (forall parsed v, normalize parsed = Ret v -> P v) ->
  exists v, identify_habits template max_tokens normalize svc user_data = Ret v /\ P v.
Proof.
  intros Herr Hnorm. unfold identify_habits, create.
  rewrite render_convert_objectid. cbn [bind].
  assert (Hcaught : forall e : exn,
             exists v,
               try_except (Raise e)
                 (fun e =>
                    if is_class OpenAIError e
                    then Ret (VList [error_record api_error_message])
                    else if is_class JSONDecodeError e
                    then Ret (VList [error_record (py "Invalid JSON format from OpenAI")])
                    else Ret (VList [error_record (exn_str e)])) = Ret v
               /\ P v).
  { intros e. cbn [try_except].
    destruct (is_class OpenAIError e); [eauto|].
    destruct (is_class JSONDecodeError e); eauto. }
  destruct (svc _) as [e|response]; cbn [bind]; [apply Hcaught|].
  destruct (first_choice_text response) as [text|e]; cbn [bind]; try apply Hcaught.
  destruct text as [|c text]; cbn [truthy negb]; [apply Hcaught|].
  destruct (extract_json (c :: text)) as [parsed|e]; cbn [bind]; try apply Hcaught.
  destruct (py_in (py "error") parsed) as [[|]|e]; cbn [bind]; try apply Hcaught.
  - destruct (py_getitem parsed (Key (py "error"))) as [cause|e]; cbn [bind];
      apply Hcaught.
  - destruct (normalize parsed) as [v|e] eqn:Hv; [|apply Hcaught].
    exists v. split; [reflexivity|]. eauto.
Qed.

Lemma normalize_good_habits_bounded (parsed v : value) :
  normalize_good_habits parsed = Ret v ->
  exists l, v = VList l /\ (length l <= 4)%nat.
Proof.
  unfold normalize_good_habits.
  destruct (good_outer_loop good_habits_keys parsed []) as [l|e]; cbn [bind];
    [|discriminate].
  intros [= <-]. exists (firstn 4 l). split; [reflexivity|].
  pose proof (firstn_le_length 4 l). lia.
Qed.

Lemma normalize_bad_habits_bounded (parsed v : value) :
  normalize_bad_habits parsed = Ret v ->
  exists x l, v = VList (x :: l) /\ (length (x :: l) <= 4)%nat.
Proof.
  unfold normalize_bad_habits.
  destruct (bad_loop bad_habits_keys parsed []) as [[|x l]|e]; cbn [bind truthy];
    try discriminate; intros [= <-].
  - exists no_bad_habits, []. split; [reflexivity|]. simpl; lia.
  - exists x, (firstn 3 l). split; [reflexivity|].
    pose proof (firstn_le_length 3 l). cbn [length] in *. lia.
Qed.

Lemma habit_lists_pair (svc : service) (user_data : value) :
  (exists l, identify_good_habits svc user_data = Ret (VList l))
  /\ (exists x l, identify_bad_habits svc user_data = Ret (VList (x :: l))).
Proof.
  split.
  - destruct (identify_habits_result (fun v => exists l, v = VList l)
                GoodHabits 500 normalize_good_habits svc user_data)
      as (v & Hv & l & ->); eauto.
    intros parsed v Hv. apply normalize_good_habits_bounded in Hv as (l & -> & _).
    eauto.
  - destruct (identify_habits_result (fun v => exists x l, v = VList (x :: l))
                BadHabits 600 normalize_bad_habits svc user_data)
      as (v & Hv & x & l & ->); eauto.
    intros parsed v Hv.
    apply normalize_bad_habits_bounded in Hv as (x & l & -> & _). eauto.
Qed.

(** X3: the habit functions never raise. [identify_good_habits] returns a
    list of at most four elements, possibly empty; [identify_bad_habits]
    returns a list of one to four elements. *)
Theorem habit_lists_bounded (svc : service) (user_data : value) :
  (exists l, identify_good_habits svc user_data = Ret (VList l)
             /\ (length l <= 4)%nat)
  /\ (exists x l, identify_bad_habits svc user_data = Ret (VList (x :: l))
                  /\ (length (x :: l) <= 4)%nat).
Proof.
  split.
  - destruct (identify_habits_result
                (fun v => exists l, v = VList l /\ (length l <= 4)%nat)
                GoodHabits 500 normalize_good_habits svc user_data)
      as (v & Hv & l & -> & Hl).
    + intros msg. eexists. split; [reflexivity|]. simpl; lia.
    + apply normalize_good_habits_bounded.
    + eauto.
  - destruct (identify_habits_result
                (fun v => exists x l, v = VList (x :: l) /\ (length (x :: l) <= 4)%nat)
                BadHabits 600 normalize_bad_habits svc user_data)
      as (v & Hv & x & l & -> & Hl).
    + intros msg. eexists. eexists. split; [reflexivity|]. simpl; lia.
    + apply normalize_bad_habits_bounded.
    + eauto.
Qed.

(** X4: in [analyze_and_update_user] no stage ever raises, so no [except]
    branch with its fallback to the stored value is ever entered: the five
    variables hold what the five stage functions returned, the two goal
    stages having been given this run's spending analysis. *)
Theorem stages_never_fall_back (svc : service) (user : dict) :
  let user_clean := convert_objectid (VDict user) in
  let r := run_stages svc user user_clean in
  analyze_spending svc user_clean = Ret (spend_analysis r)
  /\ generate_longterm_goals svc (spend_analysis r) = Ret (longterm r)
  /\ generate_shortterm_goals svc (spend_analysis r) = Ret (shortterm r)
  /\ identify_good_habits svc user_clean = Ret (good_habits r)
  /\ identify_bad_habits svc user_clean = Ret (bad_habits r).
Proof.
  intros user_clean r. unfold r, run_stages.
  cbn [spend_analysis longterm shortterm good_habits bad_habits].
  destruct (analyze_spending_serializable svc user_clean) as (d & -> & Hd).
  cbn [or_fallback]. unfold generate_longterm_goals, generate_shortterm_goals.
  destruct (goals_return svc Longterm (VDict d) Hd) as (d1 & -> & _).
  destruct (goals_return svc Shortterm (VDict d) Hd) as (d2 & -> & _).
  destruct (identify_habits_result (fun _ => True) GoodHabits 500
              normalize_good_habits svc user_clean) as (g & Hg & _); auto.
  destruct (identify_habits_result (fun _ => True) BadHabits 600
              normalize_bad_habits svc user_clean) as (b & Hb & _); auto.
  unfold identify_good_habits, identify_bad_habits. rewrite Hg, Hb.
  repeat split.
Qed.

(** X5: the merge keeps a stored value only where this run produced an
    empty one. The spending analysis and the two goal fields are
    dictionaries, kept from the record only when the stage returned [{}];
    [good_habits] is kept only when the stage returned [[]]; [bad_habits] is
    overwritten in every run. *)
Theorem prior_kept_only_for_empty (svc : service) (user : dict) :
  let r := run_stages svc user (convert_objectid (VDict user)) in
  let merged := update_data user r in
  (forall field,
     In field [py "spend_analysis"; py "longterm"; py "shortterm"] ->
     exists d,
       stage_value r field = VDict d
       /\ dict_get merged field
          = Some (match d with [] => prior_value user field | _ => VDict d end))
  /\ (exists l,
        good_habits r = VList l
        /\ dict_get merged (py "good_habits")
           = Some (match l with
                   | [] => prior_value user (py "good_habits")
                   | _ => VList l
                   end))
  /\ (exists x l,
        bad_habits r = VList (x :: l)
        /\ dict_get merged (py "bad_habits") = Some (VList (x :: l))).
Proof.
  intros r merged.
  destruct (analyze_spending_serializable svc (convert_objectid (VDict user)))
    as (d & Hs & Hd).
  destruct (goals_return svc Longterm (VDict d) Hd) as (d1 & Hl & _).
  destruct (goals_return svc Shortterm (VDict d) Hd) as (d2 & Hsh & _).
  destruct (habit_lists_pair svc (convert_objectid (VDict user)))
    as ((g & Hg) & (x & b & Hb)).
  assert (Hr : r = {| spend_analysis := VDict d; longterm := VDict d1;
                      shortterm := VDict d2; good_habits := VList g;
                      bad_habits := VList (x :: b) |}).
  { unfold r, run_stages, generate_longterm_goals, generate_shortterm_goals.
    rewrite Hs. cbn [or_fallback]. rewrite Hl, Hsh, Hg, Hb. reflexivity. }
  unfold merged. rewrite Hr. split; [|split].
  - intros field [<-|[<-|[<-|[]]]].
    + exists d. split; [reflexivity|]. now destruct d.
    + exists d1. split; [reflexivity|]. now destruct d1.
    + exists d2. split; [reflexivity|]. now destruct d2.
  - exists g. split; [reflexivity|]. now destruct g.
  - exists x, b. split; reflexivity.
Qed.

Lemma prior_kept_only_for_empty_witness :
  (exists d,
     stage_value
       (run_stages service_empty_object stored_user
          (convert_objectid (VDict stored_user))) (py "spend_analysis")
     = VDict d
     /\ dict_get
          (update_data stored_user
             (run_stages service_empty_object stored_user
                (convert_objectid (VDict stored_user)))) (py "spend_analysis")
        = Some (match d with
                | [] => prior_value stored_user (py "spend_analysis")
                | _ => VDict d
                end))
  /\ dict_get
       (update_data stored_user
          (run_stages service_empty_object stored_user
             (convert_objectid (VDict stored_user)))) (py "spend_analysis")
     = dict_get stored_user (py "spend_analysis").
Proof.
  split.
  - destruct (prior_kept_only_for_empty service_empty_object stored_user)
      as (Hdicts & _).
    apply Hdicts. left. reflexivity.
  - vm_compute. reflexivity.
Defined.

(** ** Failures as the habit functions see them *)

(** X6: an answer whose JSON object has an [error] key of its own, the
    record of a failed decoding included, counts as a failure for the two
    habit functions, which return the one record ["OpenAI JSON extraction
    failed: "] followed by that error text; [call_openai] returns such an
    object as it is. *)
Theorem answer_with_error_key
  (response : value) (text : pystr) (parsed : dict) (cause : pystr) :
  first_choice_text response = Ret text ->
  text <> [] ->
  extract_json text = Ret (VDict parsed) ->
  dict_get parsed (py "error") = Some (VStr cause) ->
  (forall svc user_data,
     svc (sampled_request (Query GoodHabits (convert_objectid user_data)) 500)
     = Responds response ->
     identify_good_habits svc user_data
     = Ret (VList [error_record (py "OpenAI JSON extraction failed: " ++ cause)]))
  /\ (forall svc user_data,
        svc (sampled_request (Query BadHabits (convert_objectid user_data)) 600)
        = Responds response ->
        identify_bad_habits svc user_data
        = Ret (VList [error_record (py "OpenAI JSON extraction failed: " ++ cause)]))
  /\ (forall svc query,
        svc (plain_request query) = Responds response ->
        no_choices response = Ret false ->
        call_openai svc query = Ret (VDict parsed)).
Proof.
  intros Htext Hne Hparsed Hcause.
  assert (Hhabits : forall template max_tokens normalize svc user_data,
             svc (sampled_request (Query template (convert_objectid user_data))
                    max_tokens) = Responds response ->
             identify_habits template max_tokens normalize svc user_data
             = Ret (VList [error_record
                             (py "OpenAI JSON extraction failed: " ++ cause)])).
  { intros template max_tokens normalize svc user_data Hsvc.
    unfold identify_habits, create. rewrite render_convert_objectid. cbn [bind].
    rewrite Hsvc. cbn [bind]. rewrite Htext. cbn [bind].
    destruct text; [congruence|]. cbn [truthy negb].
    rewrite Hparsed. cbn [bind py_in py_getitem]. unfold dict_mem.
    rewrite Hcause. reflexivity. }
  split; [|split].
  - intros svc user_data. apply Hhabits.
  - intros svc user_data. apply Hhabits.
  - intros svc query Hsvc Hchoices. unfold call_openai, create.
    rewrite Hsvc. cbn [bind]. rewrite Hchoices. cbn [bind]. rewrite Htext.
    cbn [bind]. destruct text; [congruence|]. cbn [truthy negb].
    now rewrite Hparsed.
Qed.

Lemma answer_with_error_key_witness :
  identify_good_habits service_refusal (VDict stored_user)
  = Ret (VList [error_record (py "OpenAI JSON extraction failed: insufficient data")])
  /\ identify_bad_habits service_garbled (VDict stored_user)
     = Ret (VList [error_record
                     (py "OpenAI JSON extraction failed: Invalid JSON format from OpenAI")])
  /\ call_openai service_refusal (Query Spending VNone)
     = Ret (error_record (py "insufficient data")).
Proof.
  destruct (answer_with_error_key
              (chat_response (pyq "{'error': 'insufficient data'}"))
              (pyq "{'error': 'insufficient data'}")
              [(py "error", VStr (py "insufficient data"))]
              (py "insufficient data"))
    as (Hgood & _ & Hcall); try reflexivity; [discriminate|].
  destruct (answer_with_error_key
              (chat_response (pyq "{'rating': 40, 'analysis': ['overspending'}"))
              (pyq "{'rating': 40, 'analysis': ['overspending'}")
              [(py "error", VStr invalid_json)] invalid_json)
    as (_ & Hbad & _); try reflexivity; [discriminate|].
  split; [|split].
  - apply Hgood. reflexivity.
  - apply Hbad. reflexivity.
  - apply Hcall; reflexivity.
Defined.

(** X7: the habit functions index the response without testing it: a
    response object without [choices] gives them the text of the [KeyError],
    one with an empty list of choices the text of the [IndexError], each as
    the one record of the returned list. [call_openai] tests first and
    reports an empty response in both cases. *)
Theorem response_without_choices (d : dict) :
  dict_get d (py "choices") = None
  \/ dict_get d (py "choices") = Some (VList []) ->
  (forall template max_tokens normalize svc user_data,
     svc (sampled_request (Query template (convert_objectid user_data)) max_tokens)
     = Responds (VDict d) ->
     identify_habits template max_tokens normalize svc user_data
     = Ret (VList [error_record
                     (match dict_get d (py "choices") with
                      | None => [39] ++ py "choices" ++ [39]
                      | Some _ => py "list index out of range"
                      end)]))
  /\ (forall svc query,
        svc (plain_request query) = Responds (VDict d) ->
        call_openai svc query
        = Ret (error_record (py "Empty response from OpenAI API"))).
Proof.
  intros Hchoices. split.
  - intros template max_tokens normalize svc user_data Hsvc.
    unfold identify_habits, create. rewrite render_convert_objectid. cbn [bind].
    rewrite Hsvc. cbn [bind]. unfold first_choice_text. cbn [py_getitem].
    destruct Hchoices as [-> | ->]; reflexivity.
  - intros svc query Hsvc. unfold call_openai, create. rewrite Hsvc. cbn [bind].
    unfold no_choices. destruct d as [|kv d]; [reflexivity|].
    cbn [truthy negb py_in bind py_getitem]. unfold dict_mem.
    destruct Hchoices as [-> | ->]; reflexivity.
Qed.

Lemma response_without_choices_witness :
  identify_good_habits (fun _ => Responds (VDict [(py "id", VStr (py "cmpl-1"))]))
    (VDict stored_user)
  = Ret (VList [error_record ([39] ++ py "choices" ++ [39])])
  /\ identify_bad_habits service_no_choices (VDict stored_user)
     = Ret (VList [error_record (py "list index out of range")])
  /\ call_openai service_no_choices (Query Spending VNone)
     = Ret (error_record (py "Empty response from OpenAI API")).
Proof.
  destruct (response_without_choices [(py "id", VStr (py "cmpl-1"))])
    as (Hmissing & _); [left; reflexivity|].
  destruct (response_without_choices [(py "choices", VList [])])
    as (Hempty & Hcall); [right; reflexivity|].
  split; [|split].
  - apply (Hmissing GoodHabits 500%Z normalize_good_habits). reflexivity.
  - apply (Hempty BadHabits 600%Z normalize_bad_habits). reflexivity.
  - apply Hcall. reflexivity.
Defined.

(** ** The collection *)

Lemma has_id_spec (oid : pystr) (doc : dict) :
  has_id oid doc = true <-> dict_get doc (py "_id") = Some (VObjectId oid).
Proof.
  unfold has_id. destruct (dict_get doc (py "_id")) as [[ | | | | | | |hex]|];
    try (split; [discriminate|intros [=]]).
  rewrite str_eqb_eq. split; [intros ->; reflexivity|intros [= ->]; reflexivity].
Qed.

Lemma find_has_id (oid : pystr) (docs : list dict) (doc : dict) :
  find (has_id oid) docs = Some doc ->
  dict_get doc (py "_id") = Some (VObjectId oid) /\ doc <> [].
Proof.
  intros Hfind. apply find_some in Hfind as [_ Hid].
  apply has_id_spec in Hid. split; [exact Hid|]. intros ->. discriminate.
Qed.

Lemma has_id_set_fields (oid : pystr) (doc fields : dict) :
  ~ In (py "_id") (map fst fields) ->
  has_id oid (set_fields doc fields) = has_id oid doc.
Proof.
  intros Hid. unfold has_id. now rewrite set_fields_frame.
Qed.

Lemma find_update_first (oid : pystr) (fields : dict) (docs : list dict) :
  ~ In (py "_id") (map fst fields) ->
  find (has_id oid) (update_first oid fields docs)
  = option_map (fun doc => set_fields doc fields) (find (has_id oid) docs).
Proof.
  intros Hid. induction docs as [|doc docs IH]; simpl; [reflexivity|].
  destruct (has_id oid doc) eqn:E; simpl.
  - now rewrite has_id_set_fields, E.
  - now rewrite E.
Qed.

Lemma update_first_absent (oid : pystr) (fields : dict) (docs : list dict) :
  find (has_id oid) docs = None -> update_first oid fields docs = docs.
Proof.
  induction docs as [|doc docs IH]; simpl; [reflexivity|].
  destruct (has_id oid doc); [discriminate|]. intros H. now rewrite IH.
Qed.

Lemma update_first_present (oid : pystr) (fields : dict) (docs : list dict)
  (doc : dict) :
  find (has_id oid) docs = Some doc ->
  exists before after,
    docs = before ++ doc :: after
    /\ forallb (fun d => negb (has_id oid d)) before = true
    /\ update_first oid fields docs = before ++ set_fields doc fields :: after.
Proof.
  induction docs as [|d docs IH]; simpl; [discriminate|].
  destruct (has_id oid d) eqn:E.
  - intros [= ->]. now exists [], docs.
  - intros H. destruct (IH H) as (before & after & -> & Hb & ->).
    exists (d :: before), after. simpl. now rewrite E, Hb.
Qed.

Lemma delete_first_absent (oid : pystr) (docs : list dict) :
  find (has_id oid) docs = None -> delete_first oid docs = (docs, 0%Z).
Proof.
  induction docs as [|doc docs IH]; simpl; [reflexivity|].
  destruct (has_id oid doc); [discriminate|]. intros H. now rewrite (IH H).
Qed.

Lemma delete_first_present (oid : pystr) (docs : list dict) (doc : dict) :
  find (has_id oid) docs = Some doc ->
  exists before after,
    docs = before ++ doc :: after
    /\ forallb (fun d => negb (has_id oid d)) before = true
    /\ delete_first oid docs = (before ++ after, 1%Z).
Proof.
  induction docs as [|d docs IH]; simpl; [discriminate|].
  destruct (has_id oid d) eqn:E.
  - intros [= ->]. now exists [], docs.
  - intros H. destruct (IH H) as (before & after & -> & Hb & Hdel).
    exists (d :: before), after. simpl. now rewrite E, Hb, Hdel.
Qed.

Lemma delete_first_filter (oid : pystr) (docs : list dict) :
  filter (has_id oid) (fst (delete_first oid docs)) = tl (filter (has_id oid) docs).
Proof.
  induction docs as [|doc docs IH]; simpl; [reflexivity|].
  destruct (has_id oid doc) eqn:E; simpl; [reflexivity|]. now rewrite E.
Qed.

Lemma find_filter_nil (oid : pystr) (docs : list dict) :
  filter (has_id oid) docs = [] -> find (has_id oid) docs = None.
Proof.
  induction docs as [|doc docs IH]; simpl; [reflexivity|].
  destruct (has_id oid doc); [discriminate|]. exact IH.
Qed.

(** ** Runs of the orchestrator *)

(** A run on a record whose [_id] is an [ObjectId], when the store takes the
    merged fields: the [$set] is sent, the record is read again, and the
    answer is built from what was read. *)
Lemma analyze_and_update_user_runs
  (svc : service) (user : dict) (w : world) (oid : pystr) :
  dict_get user (py "_id") = Some (VObjectId oid) ->
  let merged :=
    update_data user (run_stages svc user (convert_objectid (VDict user))) in
  let found := find (has_id oid) (update_first oid merged (users_collection w)) in
  eight_byte_ints (VDict merged) = true ->
  refused w (users_collection w) oid merged = None ->
  analyze_and_update_user svc user w
  = (email <- get_email found ;;
     Ret (VDict [ (py "message", VStr (py "Analysis completed and updated"));
                  (py "email", email);
                  (py "data", convert_objectid (found_value found)) ]),
     MkWorld (update_first oid merged (users_collection w))
       (oplog w ++ [UpdateOneSet oid merged; FindOne oid None]) (refused w)).
Proof.
  intros Hid merged found Hints Htaken.
  unfold analyze_and_update_user, bindM, lift, json_dumps.
  rewrite convert_objectid_serializable. cbn [py_getitem]. rewrite Hid.
  cbn [ObjectId]. unfold update_one_set. fold merged. rewrite Hints, Htaken.
  cbn [negb]. unfold find_one, sent.
  cbn [users_collection oplog refused]. rewrite <- app_assoc. cbn [app].
  replace (option_map (project None)
             (find (has_id oid) (update_first oid merged (users_collection w))))
    with found by (unfold found; now destruct (find _ _)).
  destruct (get_email found); reflexivity.
Qed.

(** The same run when the merged fields are not taken: the error of the
    driver or of the store leaves the run, and nothing has been sent. *)
Lemma analyze_and_update_user_refused
  (svc : service) (user : dict) (w : world) (oid : pystr) :
  dict_get user (py "_id") = Some (VObjectId oid) ->
  let merged :=
    update_data user (run_stages svc user (convert_objectid (VDict user))) in
  (eight_byte_ints (VDict merged) = false ->
     analyze_and_update_user svc user w = (Raise overflow_error, w))
  /\ (forall msg,
        eight_byte_ints (VDict merged) = true ->
        refused w (users_collection w) oid merged = Some msg ->
        analyze_and_update_user svc user w = (Raise (Exn OtherError msg), w)).
Proof.
  intros Hid merged.
  unfold analyze_and_update_user, bindM, lift, json_dumps.
  rewrite convert_objectid_serializable. cbn [py_getitem]. rewrite Hid.
  cbn [ObjectId]. unfold update_one_set. fold merged. split.
  - intros ->. reflexivity.
  - intros msg -> ->. reflexivity.
Qed.

(** X8: a run on a record that has no [_id] raises [KeyError] after the
    five stages and sends nothing to the collection. On a record whose
    [_id] is an [ObjectId]: when the merged fields hold an integer of more
    than eight bytes the run raises the driver's [OverflowError], and when
    the store turns the update down it raises the store's error, in both
    cases with nothing sent and the collection as it was; when the update
    is taken and no stored record carries the identifier, the [$set] matches
    nothing and leaves the collection as it was, and the run raises
    [AttributeError] on the record it cannot read back. *)
Theorem run_on_missing_record (svc : service) (user : dict) (w : world) :
  (dict_get user (py "_id") = None ->
     analyze_and_update_user svc user w
     = (Raise (Exn KeyError ([39] ++ py "_id" ++ [39])), w))
  /\ (forall oid,
        dict_get user (py "_id") = Some (VObjectId oid) ->
        let merged :=
          update_data user (run_stages svc user (convert_objectid (VDict user))) in
        (eight_byte_ints (VDict merged) = false ->
           analyze_and_update_user svc user w = (Raise overflow_error, w))
        /\ (forall msg,
              eight_byte_ints (VDict merged) = true ->
              refused w (users_collection w) oid merged = Some msg ->
              analyze_and_update_user svc user w = (Raise (Exn OtherError msg), w))
        /\ (eight_byte_ints (VDict merged) = true ->
            refused w (users_collection w) oid merged = None ->
            find (has_id oid) (users_collection w) = None ->
            fst (analyze_and_update_user svc user w)
            = Raise (no_attribute VNone (py "get"))
            /\ users_collection (snd (analyze_and_update_user svc user w))
               = users_collection w
            /\ sent_by (analyze_and_update_user svc user) w
               = [UpdateOneSet oid merged; FindOne oid None])).
Proof.
  split.
  - intros Hid. unfold analyze_and_update_user, bindM, lift, json_dumps.
    rewrite convert_objectid_serializable. cbn [py_getitem]. now rewrite Hid.
  - intros oid Hid merged.
    destruct (analyze_and_update_user_refused svc user w oid Hid)
      as [Hoverflow Hrefused].
    split; [exact Hoverflow|]. split; [exact Hrefused|].
    intros Hints Htaken Habsent. unfold sent_by.
    rewrite (analyze_and_update_user_runs svc user w oid Hid Hints Htaken).
    cbn [fst snd users_collection oplog]. fold merged.
    rewrite update_first_absent by assumption. rewrite Habsent.
    rewrite skipn_length_app. repeat split.
Qed.

Lemma run_on_missing_record_witness :
  analyze_and_update_user service_down [(py "email", VStr (py "asha@example.com"))]
    (World [stored_user] [])
  = (Raise (Exn KeyError ([39] ++ py "_id" ++ [39])), World [stored_user] [])
  /\ fst (analyze_and_update_user service_down stored_user (World [] []))
     = Raise (no_attribute VNone (py "get"))
  /\ analyze_and_update_user service_wide_int stored_user (World [stored_user] [])
     = (Raise overflow_error, World [stored_user] []).
Proof.
  split; [|split].
  - apply (run_on_missing_record service_down
             [(py "email", VStr (py "asha@example.com"))] (World [stored_user] [])).
    reflexivity.
  - destruct (run_on_missing_record service_down stored_user (World [] []))
      as [_ Hid].
    destruct (Hid (py "0123456789abcdef01234567") eq_refl) as (_ & _ & Htaken).
    apply Htaken; reflexivity.
  - destruct (run_on_missing_record service_wide_int stored_user
                (World [stored_user] [])) as [_ Hid].
    destruct (Hid (py "0123456789abcdef01234567") eq_refl) as (Hoverflow & _).
    apply Hoverflow. vm_compute. reflexivity.
Defined.

(** ** The trigger endpoint *)

Lemma merged_keeps_id (user : dict) (r : stage_values) :
  ~ In (py "_id") (map fst (update_data user r)).
Proof. not_in. Qed.

(** X9: with a well-formed identifier, the trigger endpoint answers 404
    ["User not found"] when no stored record carries it and 404 ["User email
    not found"] when the record has no [email] or an empty one; in both
    cases the read is all it has sent and the collection is as it was. *)
Theorem trigger_rejects_without_writing
  (svc : service) (user_id : pystr) (w : world) :
  valid_oid_str user_id = true ->
  let oid := map lower_hex user_id in
  let read := sent (FindOne oid None) (users_collection w) w in
  (find (has_id oid) (users_collection w) = None ->
     verify_and_run_analysis svc user_id w
     = (Raise (Exn (HTTPException 404) (py "User not found")), read))
  /\ (forall doc,
        find (has_id oid) (users_collection w) = Some doc ->
        truthy (dict_get_default doc (py "email") VNone) = false ->
        verify_and_run_analysis svc user_id w
        = (Raise (Exn (HTTPException 404) (py "User email not found")), read)).
Proof.
  intros Hvalid oid read.
  destruct (valid_oid_str_accepted user_id Hvalid) as [Hok Hoid].
  unfold verify_and_run_analysis. rewrite Hok, Hoid. cbn [negb].
  unfold bindM, lift, find_one, sent, http_error. cbn [users_collection oplog].
  fold oid. split.
  - intros ->. reflexivity.
  - intros doc Hdoc Hemail. rewrite Hdoc. cbn [option_map project].
    apply find_has_id in Hdoc as [_ Hne].
    destruct doc; [congruence|]. cbn [truthy negb]. now rewrite Hemail.
Qed.

Lemma trigger_rejects_without_writing_witness :
  verify_and_run_analysis service_down (py "ffffffffffffffffffffffff")
    (World [stored_user] [])
  = (Raise (Exn (HTTPException 404) (py "User not found")),
     World [stored_user] [FindOne (py "ffffffffffffffffffffffff") None])
  /\ verify_and_run_analysis service_down (py "0123456789abcdef01234567")
       (World [[(py "_id", VObjectId (py "0123456789abcdef01234567"));
                (py "email", VStr [])]] [])
     = (Raise (Exn (HTTPException 404) (py "User email not found")),
        World [[(py "_id", VObjectId (py "0123456789abcdef01234567"));
                (py "email", VStr [])]]
              [FindOne (py "0123456789abcdef01234567") None]).
Proof.
  split.
  - apply (trigger_rejects_without_writing service_down
             (py "ffffffffffffffffffffffff") (World [stored_user] []));
      reflexivity.
  - apply (trigger_rejects_without_writing service_down
             (py "0123456789abcdef01234567")
             (World [[(py "_id", VObjectId (py "0123456789abcdef01234567"));
                      (py "email", VStr [])]] []))
      with (doc := [(py "_id", VObjectId (py "0123456789abcdef01234567"));
                    (py "email", VStr [])]);
      reflexivity.
Defined.

(** X10: with a well-formed identifier whose record has a non-empty string
    as [email], the trigger endpoint reads the record and runs the analysis.
    When the store takes the merged fields it succeeds: it has sent the
    read, the [$set] of the merged fields and the second read; only the
    first record with that identifier changes, by having the merged fields
    assigned; and the answer holds the message, the stored email and, under
    [data], the updated record with its [ObjectId]s turned to strings. When
    the merged fields hold an integer of more than eight bytes the driver's
    [OverflowError] leaves the endpoint, and when the store turns the update
    down the store's error does; the read is then all that was sent and the
    collection is as it was. *)
Theorem trigger_updates_and_reports
  (svc : service) (user_id : pystr) (w : world) (doc : dict) (email : pystr) :
  valid_oid_str user_id = true ->
  find (has_id (map lower_hex user_id)) (users_collection w) = Some doc ->
  dict_get doc (py "email") = Some (VStr email) ->
  email <> [] ->
  let oid := map lower_hex user_id in
  let merged := update_data doc (run_stages svc doc (convert_objectid (VDict doc))) in
  let read := sent (FindOne oid None) (users_collection w) w in
  (eight_byte_ints (VDict merged) = true ->
   refused w (users_collection w) oid merged = None ->
   verify_and_run_analysis svc user_id w
   = (Ret (VDict [ (py "message", VStr (py "Analysis completed and updated"));
                   (py "email", VStr email);
                   (py "data", convert_objectid (VDict (set_fields doc merged))) ]),
      MkWorld (update_first oid merged (users_collection w))
        (oplog w ++ [FindOne oid None; UpdateOneSet oid merged; FindOne oid None])
        (refused w))
   /\ exists before after,
        users_collection w = before ++ doc :: after
        /\ update_first oid merged (users_collection w)
           = before ++ set_fields doc merged :: after)
  /\ (eight_byte_ints (VDict merged) = false ->
      verify_and_run_analysis svc user_id w = (Raise overflow_error, read))
  /\ (forall msg,
        eight_byte_ints (VDict merged) = true ->
        refused w (users_collection w) oid merged = Some msg ->
        verify_and_run_analysis svc user_id w = (Raise (Exn OtherError msg), read)).
Proof.
  intros Hvalid Hdoc Hemail Hne oid merged read. subst oid.
  destruct (valid_oid_str_accepted user_id Hvalid) as [Hok Hoid].
  destruct (find_has_id _ _ _ Hdoc) as [Hid Hnonempty].
  assert (Hrun : verify_and_run_analysis svc user_id w
                 = (result <~ analyze_and_update_user svc doc ;;
                    _ <~ lift (json_dumps result) ;;
                    lift (Ret result)) read).
  { unfold verify_and_run_analysis. rewrite Hok, Hoid. cbn [negb].
    unfold bindM at 1 2. unfold lift at 1, find_one at 1.
    rewrite Hdoc. cbn [option_map project]. fold read.
    destruct doc as [|kv doc']; [congruence|]. cbn [truthy negb].
    unfold dict_get_default. rewrite Hemail.
    destruct email; [congruence|]. reflexivity. }
  rewrite Hrun. unfold bindM.
  destruct (analyze_and_update_user_refused svc doc read _ Hid)
    as [Hoverflow Hrefused].
  split; [|split].
  - intros Hints Htaken. split.
    + rewrite (analyze_and_update_user_runs svc doc read _ Hid Hints Htaken).
      unfold read, sent. cbn [users_collection oplog refused]. fold merged.
      rewrite find_update_first by apply merged_keeps_id.
      rewrite Hdoc. cbn [option_map get_email found_value bind].
      unfold dict_get_default. rewrite set_fields_frame by not_in.
      rewrite Hemail. unfold lift, json_dumps.
      cbn [json_serializable forallb snd].
      rewrite convert_objectid_serializable. cbn [andb].
      rewrite <- app_assoc. reflexivity.
    + destruct (update_first_present _ merged _ _ Hdoc)
        as (before & after & Hsplit & _ & Hupd).
      eauto.
  - intros Hints. now rewrite (Hoverflow Hints).
  - intros msg Hints Hmsg. now rewrite (Hrefused msg Hints Hmsg).
Qed.

Lemma trigger_updates_and_reports_witness :
  fst (verify_and_run_analysis service_empty_object (py "0123456789ABCDEF01234567")
         (World [stored_user] []))
  = Ret (VDict [ (py "message", VStr (py "Analysis completed and updated"));
                 (py "email", VStr (py "asha@example.com"));
                 (py "data",
                  convert_objectid
                    (VDict (set_fields stored_user
                              (update_data stored_user
                                 (run_stages service_empty_object stored_user
                                    (convert_objectid (VDict stored_user))))))) ])
  /\ verify_and_run_analysis service_wide_int (py "0123456789ABCDEF01234567")
       (World [stored_user] [])
     = (Raise overflow_error,
        World [stored_user] [FindOne (py "0123456789abcdef01234567") None])
  /\ verify_and_run_analysis service_empty_object (py "0123456789ABCDEF01234567")
       full_store
     = (Raise (Exn OtherError too_large),
        sent (FindOne (py "0123456789abcdef01234567") None) [stored_user] full_store).
Proof.
  split; [|split].
  - destruct (trigger_updates_and_reports service_empty_object
                (py "0123456789ABCDEF01234567") (World [stored_user] [])
                stored_user (py "asha@example.com")) as [Hrun _].
    + reflexivity.
    + reflexivity.
    + reflexivity.
    + discriminate.
    + destruct Hrun as [Hrun _]; [reflexivity|reflexivity|].
      rewrite Hrun. reflexivity.
  - destruct (trigger_updates_and_reports service_wide_int
                (py "0123456789ABCDEF01234567") (World [stored_user] [])
                stored_user (py "asha@example.com")) as (_ & Hoverflow & _).
    + reflexivity.
    + reflexivity.
    + reflexivity.
    + discriminate.
    + apply Hoverflow. vm_compute. reflexivity.
  - destruct (trigger_updates_and_reports service_empty_object
                (py "0123456789ABCDEF01234567") full_store
                stored_user (py "asha@example.com")) as (_ & _ & Hrefused).
    + reflexivity.
    + reflexivity.
    + reflexivity.
    + discriminate.
    + apply Hrefused; reflexivity.
Defined.

(** ** The read-only analysis endpoint, continued *)

Lemma project_get (fields : list pystr) (doc : dict) (k : pystr) :
  k = py "_id" \/ In k fields ->
  dict_get (project (Some fields) doc) k = dict_get doc k.
Proof.
  intros Hk. unfold project.
  assert (Hkeep : str_eqb k (py "_id") || existsb (str_eqb k) fields = true).
  { destruct Hk as [-> | Hin]; [reflexivity|].
    apply orb_true_iff. right. apply existsb_exists. exists k.
    split; [exact Hin | apply str_eqb_refl]. }
  induction doc as [|[k0 v0] doc IH]; simpl; [reflexivity|].
  destruct (str_eqb k0 k) eqn:E.
  - apply str_eqb_eq in E. subst k0. rewrite Hkeep. simpl.
    now rewrite str_eqb_refl.
  - destruct (str_eqb k0 (py "_id") || existsb (str_eqb k0) fields); simpl;
      [rewrite E|]; exact IH.
Qed.

(** X11: with a well-formed identifier the analysis endpoint sends one
    read, restricted to [financial], and nothing else. It answers 404 when
    no record carries the identifier, 400 ["No financial data found for the
    user"] when the record has no [financial] field or an empty one, and
    otherwise returns the identifier as it was given together with what
    [analyze_spending] returns on the [financial] field alone. The
    collection is the same afterwards. *)
Theorem analysis_endpoint_outcomes (svc : service) (user_id : pystr) (w : world) :
  valid_oid_str user_id = true ->
  let oid := map lower_hex user_id in
  let read := sent (FindOne oid (Some [py "financial"])) (users_collection w) w in
  (find (has_id oid) (users_collection w) = None ->
     analyze_user_finances svc user_id w
     = (Raise (Exn (HTTPException 404) (py "User not found")), read))
  /\ (forall doc,
        find (has_id oid) (users_collection w) = Some doc ->
        truthy (dict_get_default doc (py "financial") (VDict [])) = false ->
        analyze_user_finances svc user_id w
        = (Raise (Exn (HTTPException 400) (py "No financial data found for the user")),
           read))
  /\ (forall doc,
        find (has_id oid) (users_collection w) = Some doc ->
        truthy (dict_get_default doc (py "financial") (VDict [])) = true ->
        exists d,
          analyze_spending svc (dict_get_default doc (py "financial") (VDict []))
          = Ret (VDict d)
          /\ analyze_user_finances svc user_id w
             = (Ret (VDict [ (py "user_id", VStr user_id);
                             (py "analysis", VDict d) ]), read)).
Proof.
  intros Hvalid oid read.
  destruct (valid_oid_str_accepted user_id Hvalid) as [Hok Hoid].
  unfold analyze_user_finances. rewrite Hok, Hoid. cbn [negb].
  unfold bindM, lift, find_one, sent, http_error. cbn [users_collection oplog].
  fold oid.
  assert (Hfound : forall doc,
             find (has_id oid) (users_collection w) = Some doc ->
             truthy (VDict (project (Some [py "financial"]) doc)) = true
             /\ dict_get_default (project (Some [py "financial"]) doc)
                  (py "financial") (VDict [])
                = dict_get_default doc (py "financial") (VDict [])).
  { intros doc Hdoc. apply find_has_id in Hdoc as [Hid _]. split.
    - pose proof (project_get [py "financial"] doc (py "_id") (or_introl eq_refl))
        as Hp.
      rewrite Hid in Hp. destruct (project _ doc); [discriminate|reflexivity].
    - unfold dict_get_default. rewrite project_get; [reflexivity|].
      right. now left. }
  split; [|split].
  - intros ->. reflexivity.
  - intros doc Hdoc Hfin. rewrite Hdoc. cbn [option_map].
    destruct (Hfound doc Hdoc) as [-> ->]. cbn [negb]. now rewrite Hfin.
  - intros doc Hdoc Hfin. rewrite Hdoc. cbn [option_map].
    destruct (Hfound doc Hdoc) as [-> ->]. cbn [negb]. rewrite Hfin. cbn [negb].
    destruct (analyze_spending_returns svc
                (dict_get_default doc (py "financial") (VDict []))) as [d Hd].
    exists d. split; [exact Hd|]. now rewrite Hd.
Qed.

Lemma analysis_endpoint_outcomes_witness :
  analyze_user_finances service_down (py "0123456789abcdef01234567")
    (World [[(py "_id", VObjectId (py "0123456789abcdef01234567"));
             (py "email", VStr (py "asha@example.com"))]] [])
  = (Raise (Exn (HTTPException 400) (py "No financial data found for the user")),
     World [[(py "_id", VObjectId (py "0123456789abcdef01234567"));
             (py "email", VStr (py "asha@example.com"))]]
           [FindOne (py "0123456789abcdef01234567") (Some [py "financial"])])
  /\ exists d,
       analyze_user_finances service_down (py "0123456789ABCDEF01234567")
         (World [stored_user] [])
       = (Ret (VDict [ (py "user_id", VStr (py "0123456789ABCDEF01234567"));
                       (py "analysis", VDict d) ]),
          World [stored_user]
                [FindOne (py "0123456789abcdef01234567") (Some [py "financial"])]).
Proof.
  split.
  - apply (analysis_endpoint_outcomes service_down (py "0123456789abcdef01234567")
             (World [[(py "_id", VObjectId (py "0123456789abcdef01234567"));
                      (py "email", VStr (py "asha@example.com"))]] []))
      with (doc := [(py "_id", VObjectId (py "0123456789abcdef01234567"));
                    (py "email", VStr (py "asha@example.com"))]);
      reflexivity.
  - destruct (analysis_endpoint_outcomes service_down (py "0123456789ABCDEF01234567")
                (World [stored_user] [])) as (_ & _ & Hsuccess); [reflexivity|].
    destruct (Hsuccess stored_user) as (d & _ & Hrun); [reflexivity|reflexivity|].
    exists d. exact Hrun.
Defined.

(** ** The delete endpoint *)

(** X12: with a well-formed identifier the delete endpoint sends one
    delete. When no record carries the identifier it answers 404 and the
    collection is as it was; otherwise it removes the first record with
    that identifier and no other, and answers with the confirmation. *)
Theorem delete_user_outcomes (user_id : pystr) (w : world) :
  valid_oid_str user_id = true ->
  let oid := map lower_hex user_id in
  (find (has_id oid) (users_collection w) = None ->
     delete_user user_id w
     = (Raise (Exn (HTTPException 404) (py "User not found")),
        sent (DeleteOne oid) (users_collection w) w))
  /\ (forall doc,
        find (has_id oid) (users_collection w) = Some doc ->
        exists before after,
          users_collection w = before ++ doc :: after
          /\ forallb (fun d => negb (has_id oid d)) before = true
          /\ delete_user user_id w
             = (Ret (VDict [(py "message", VStr (py "User deleted successfully"))]),
                sent (DeleteOne oid) (before ++ after) w)).
Proof.
  intros Hvalid oid.
  destruct (valid_oid_str_accepted user_id Hvalid) as [Hok Hoid].
  unfold delete_user. rewrite Hok, Hoid. cbn [negb].
  unfold bindM, lift, delete_one, sent, http_error. cbn [users_collection oplog].
  fold oid. split.
  - intros Habsent. now rewrite (delete_first_absent _ _ Habsent).
  - intros doc Hdoc.
    destruct (delete_first_present _ _ _ Hdoc) as (before & after & Hsplit & Hb & Hdel).
    exists before, after. split; [exact Hsplit|]. split; [exact Hb|].
    now rewrite Hdel.
Qed.

Lemma delete_user_outcomes_witness :
  delete_user (py "ffffffffffffffffffffffff") (World [stored_user] [])
  = (Raise (Exn (HTTPException 404) (py "User not found")),
     World [stored_user] [DeleteOne (py "ffffffffffffffffffffffff")])
  /\ exists before after,
       [stored_user] = before ++ stored_user :: after
       /\ delete_user (py "0123456789abcdef01234567") (World [stored_user] [])
          = (Ret (VDict [(py "message", VStr (py "User deleted successfully"))]),
             World (before ++ after) [DeleteOne (py "0123456789abcdef01234567")]).
Proof.
  split.
  - apply (delete_user_outcomes (py "ffffffffffffffffffffffff")
             (World [stored_user] [])); reflexivity.
  - destruct (delete_user_outcomes (py "0123456789abcdef01234567")
                (World [stored_user] [])) as (_ & Hfound); [reflexivity|].
    destruct (Hfound stored_user eq_refl) as (before & after & Hsplit & _ & Hrun).
    exists before, after. split; [exact Hsplit | exact Hrun].
Defined.

Lemma verify_and_run_analysis_absent (svc : service) (user_id : pystr) (w : world) :
  valid_oid_str user_id = true ->
  find (has_id (map lower_hex user_id)) (users_collection w) = None ->
  verify_and_run_analysis svc user_id w
  = (Raise (Exn (HTTPException 404) (py "User not found")),
     sent (FindOne (map lower_hex user_id) None) (users_collection w) w).
Proof.
  intros Hvalid Habsent.
  destruct (valid_oid_str_accepted user_id Hvalid) as [Hok Hoid].
  unfold verify_and_run_analysis. rewrite Hok, Hoid. cbn [negb].
  unfold bindM, lift, find_one, sent, http_error. cbn [users_collection oplog].
  now rewrite Habsent.
Qed.

(** X13: once a record has been deleted, the trigger endpoint answers 404
    for its identifier and writes nothing, provided no second record carried
    the same identifier (which the store guarantees for [_id]). *)
Theorem deleted_user_is_gone (svc : service) (user_id : pystr) (w : world) :
  valid_oid_str user_id = true ->
  (length (filter (has_id (map lower_hex user_id)) (users_collection w)) <= 1)%nat ->
  let after_delete := snd (delete_user user_id w) in
  verify_and_run_analysis svc user_id after_delete
  = (Raise (Exn (HTTPException 404) (py "User not found")),
     sent (FindOne (map lower_hex user_id) None) (users_collection after_delete)
       after_delete).
Proof.
  intros Hvalid Hunique after_delete.
  apply (verify_and_run_analysis_absent svc user_id after_delete Hvalid).
  apply find_filter_nil. unfold after_delete, delete_user.
  destruct (valid_oid_str_accepted user_id Hvalid) as [-> ->]. cbn [negb].
  unfold bindM, lift, delete_one, sent, http_error. cbn [users_collection oplog].
  assert (Hgone : filter (has_id (map lower_hex user_id))
                    (fst (delete_first (map lower_hex user_id) (users_collection w)))
                  = []).
  { rewrite delete_first_filter.
    destruct (filter (has_id (map lower_hex user_id)) (users_collection w))
      as [|d [|d' l]]; simpl in *; auto; lia. }
  destruct (Z.eqb _ 0); exact Hgone.
Qed.

Lemma deleted_user_is_gone_witness :
  verify_and_run_analysis service_down (py "0123456789abcdef01234567")
    (snd (delete_user (py "0123456789abcdef01234567") (World [stored_user] [])))
  = (Raise (Exn (HTTPException 404) (py "User not found")),
     World [] [ DeleteOne (py "0123456789abcdef01234567");
                FindOne (py "0123456789abcdef01234567") None ]).
Proof.
  rewrite (deleted_user_is_gone service_down (py "0123456789abcdef01234567")
             (World [stored_user] [])).
  - reflexivity.
  - reflexivity.
  - vm_compute. lia.
Defined.

(** ** Identifiers *)

Lemma lower_hex_spec (c : N) :
  is_hex (lower_hex c) = is_hex c /\ lower_hex (lower_hex c) = lower_hex c.
Proof.
  unfold is_hex, is_digit, lower_hex.
  destruct (N.leb_spec 65 c), (N.leb_spec c 70); cbn [andb].
  - repeat match goal with
           | |- context [?a <=? ?b] => destruct (N.leb_spec a b)
           end; cbn; split; try reflexivity; lia.
  - repeat match goal with
           | |- context [?a <=? ?b] => destruct (N.leb_spec a b)
           end; cbn; split; try reflexivity; lia.
  - repeat match goal with
           | |- context [?a <=? ?b] => destruct (N.leb_spec a b)
           end; cbn; split; try reflexivity; lia.
  - repeat match goal with
           | |- context [?a <=? ?b] => destruct (N.leb_spec a b)
           end; cbn; split; try reflexivity; lia.
Qed.

Lemma is_ascii_space_lower (c : N) :
  is_ascii_space (lower_hex c) = is_ascii_space c.
Proof.
  unfold lower_hex. destruct ((65 <=? c) && (c <=? 70)) eqn:E; [|reflexivity].
  apply andb_true_iff in E as [Hlow Hhigh]. apply N.leb_le in Hlow, Hhigh.
  unfold is_ascii_space.
  repeat match goal with
         | |- context [?a <=? ?b] => destruct (N.leb_spec a b)
         | |- context [?a =? ?b] => destruct (N.eqb_spec a b)
         end; cbn; try reflexivity; lia.
Qed.

Lemma fromhex_lower (s : pystr) : fromhex (map lower_hex s) = fromhex s.
Proof.
  assert (H : forall n s, (length s <= n)%nat ->
                          fromhex (map lower_hex s) = fromhex s).
  { induction n as [|n IH]; intros [|c r] Hn; cbn [length] in *;
      try reflexivity; try lia.
    cbn [map fromhex]. rewrite is_ascii_space_lower.
    destruct (is_ascii_space c); [apply IH; lia|].
    destruct r as [|d r']; [reflexivity|]. cbn [map length] in *.
    rewrite !(proj1 (lower_hex_spec _)), !(proj2 (lower_hex_spec _)).
    rewrite (IH r') by lia. reflexivity. }
  apply (H (length s)). lia.
Qed.

Lemma ObjectId_lower (s : pystr) :
  ObjectId_is_valid (VStr (map lower_hex s)) = ObjectId_is_valid (VStr s)
  /\ (ObjectId_is_valid (VStr s) = true ->
      ObjectId (VStr (map lower_hex s)) = ObjectId (VStr s)).
Proof.
  destruct (ObjectId_str_cases s)
    as [(hex & Hlen & Hread & Hoid & Hok) | (Hbad & Hno & _)];
    destruct (ObjectId_str_cases (map lower_hex s))
      as [(hex' & Hlen' & Hread' & Hoid' & Hok') | (Hbad' & Hno' & _)];
    rewrite ?length_map, ?fromhex_lower in *.
  - rewrite Hok, Hok', Hoid, Hoid'. split; [reflexivity|]. congruence.
  - exfalso. destruct Hbad'; [contradiction | congruence].
  - exfalso. destruct Hbad; [contradiction | congruence].
  - rewrite Hno, Hno'. split; [reflexivity | discriminate].
Qed.

(** X14: the case of the hexadecimal digits of an identifier does not
    matter to the trigger and delete endpoints: an identifier and its
    lower-case form get the same answer and have the same effect. The
    analysis endpoint differs only in echoing the identifier as given. *)
Theorem identifier_case_insensitive (svc : service) (user_id : pystr) (w : world) :
  verify_and_run_analysis svc (map lower_hex user_id) w
  = verify_and_run_analysis svc user_id w
  /\ delete_user (map lower_hex user_id) w = delete_user user_id w
  /\ snd (analyze_user_finances svc (map lower_hex user_id) w)
     = snd (analyze_user_finances svc user_id w).
Proof.
  destruct (ObjectId_lower user_id) as [Hvalid Hlower].
  unfold verify_and_run_analysis, delete_user, analyze_user_finances.
  rewrite Hvalid.
  destruct (ObjectId_is_valid (VStr user_id)); cbn [negb]; [|repeat split].
  rewrite (Hlower eq_refl). repeat split.
  unfold bindM, lift, find_one, sent, http_error.
  destruct (ObjectId (VStr user_id)) as [oid|e]; [|reflexivity].
  cbn [users_collection oplog].
  destruct (option_map _ _) as [doc|]; [|reflexivity].
  destruct (negb (truthy (VDict doc))); [reflexivity|].
  destruct (negb (truthy _)); reflexivity.
Qed.

(** ** ideal_spending.py *)







Lemma dict_get_serializable (d : dict) (k : pystr) (v : value) :
  dict_get d k = Some v ->
  json_serializable (VDict d) = true -> json_serializable v = true.
Proof.
  simpl. induction d as [|[k0 v0] d IH]; simpl; [discriminate|].
  intros Hget Hall. apply andb_true_iff in Hall as [H0 Hd].
  destruct (str_eqb k0 k); [injection Hget as <-; exact H0 | auto].
Qed.

(** X17: [suggest_ideal_spending] hands the record to [json.dumps] as it
    is. On a record that carries an [ObjectId] under some key, as every
    record read from the collection does under [_id], it raises [TypeError]
    whatever the service would answer; [analyze_spending], which converts
    first, returns on the same record. On a record that [json.dumps]
    accepts it returns what its [call_openai] returns. *)
Theorem suggest_ideal_spending_on_stored_record
  (svc : IdealSpending.service) (user_data : dict) :
  (forall key oid,
     dict_get user_data key = Some (VObjectId oid) ->
     IdealSpending.suggest_ideal_spending svc user_data
     = Raise (Exn TypeError (py "Object of type ObjectId is not JSON serializable"))
     /\ forall svc', exists d, analyze_spending svc' (VDict user_data) = Ret (VDict d))
  /\ (json_serializable (VDict user_data) = true ->
        IdealSpending.suggest_ideal_spending svc user_data
        = IdealSpending.call_openai svc (IdealSpending.Query user_data)).
Proof.
  unfold IdealSpending.suggest_ideal_spending, json_dumps. split.
  - intros key oid Hget. split; [|intros svc'; apply analyze_spending_returns].
    destruct (json_serializable (VDict user_data)) eqn:E; [|reflexivity].
    apply (dict_get_serializable _ _ _ Hget) in E. discriminate.
  - intros ->. reflexivity.
Qed.

Lemma suggest_ideal_spending_on_stored_record_witness :
  IdealSpending.suggest_ideal_spending
    (fun _ => Responds (chat_response (pyq "{'income': 50000}"))) stored_user
  = Raise (Exn TypeError (py "Object of type ObjectId is not JSON serializable"))
  /\ IdealSpending.suggest_ideal_spending
       (fun _ => Responds (chat_response (pyq "{'income': 50000}")))
       [(py "income", VInt 50000)]
     = Ret (VDict [(py "income", VInt 50000)]).
Proof.
  split.
  - apply (suggest_ideal_spending_on_stored_record
             (fun _ => Responds (chat_response (pyq "{'income': 50000}")))
             stored_user)
      with (key := py "_id") (oid := py "0123456789abcdef01234567").
    reflexivity.
  - destruct (suggest_ideal_spending_on_stored_record
                (fun _ => Responds (chat_response (pyq "{'income': 50000}")))
                [(py "income", VInt 50000)]) as [_ Hclean].
    rewrite Hclean; reflexivity.
Defined.
